(** * scrape_ssh: the address resolver and the command-line driver of ssh.py

    A shallow embedding of [find_server_ip] and [main] of [src/ssh.py],
    with the properties of the specification stated over it.

    The HTML parser (BeautifulSoup) and the table reader (pandas) are
    libraries outside the repository.  The embedding starts from what they
    hand to the code: a document is the sequence of its [<table>] elements
    in document order, and each element is given by what
    [pd.read_html(str(table))[0]] makes of it, an exception or a data
    frame. *)

From Stdlib Require Import String Ascii List Bool Arith NArith ZArith Lia.
Import ListNotations.
Local Open Scope string_scope.
Local Open Scope list_scope.

(** ** Python strings

    A Python [str] is a sequence of code points; the model keeps the code
    points below 256, one per [ascii]. *)

Module Py.

(** [c.isspace()] on the code points below 256: tab to carriage return,
    the four separators 0x1c-0x1f, space, NEL (0x85) and the no-break
    space (0xa0). *)
Definition isspace (c : ascii) : bool :=
  let n := N_of_ascii c in
  (((9 <=? n) && (n <=? 13)) || ((28 <=? n) && (n <=? 32))
   || (n =? 133) || (n =? 160))%N.

Fixpoint lstrip (s : string) : string :=
  match s with
  | EmptyString => EmptyString
  | String c rest => if isspace c then lstrip rest else s
  end.

Fixpoint rstrip (s : string) : string :=
  match s with
  | EmptyString => EmptyString
  | String c rest =>
      match rstrip rest with
      | EmptyString => if isspace c then EmptyString else String c EmptyString
      | kept => String c kept
      end
  end.

(** [s.strip()] *)
Definition strip (s : string) : string := rstrip (lstrip s).

(** Truth value of a string: [bool(s)]. *)
Definition truthy (s : string) : bool :=
  match s with EmptyString => false | String _ _ => true end.

Definition quote : string := String (ascii_of_nat 34) EmptyString.
Definition newline : string := String (ascii_of_nat 10) EmptyString.

End Py.

(** ** Exceptions *)

(** The exceptions of the program, all of them subclasses of
    [Exception]. *)
Inductive exn : Type :=
| KeyError (key : string)
| AttributeError
| IndexError
| ValueError
| TypeError
| OtherException (name : string).

Inductive result (A : Type) : Type :=
| Ok (a : A)
| Raise (e : exn).
Arguments Ok {A} a.
Arguments Raise {A} e.

(** Both the resolver (exceptions) and the driver (effects and exit) are
    written in sequence; one notation serves the two. *)
Class Monad (M : Type -> Type) : Type := {
  ret : forall {A : Type}, A -> M A;
  bind : forall {A B : Type}, M A -> (A -> M B) -> M B
}.

Notation "x <- c ;; k" := (bind c (fun x => k))
  (at level 61, c at next level, right associativity).
Notation "c ;; k" := (bind c (fun _ => k))
  (at level 61, right associativity).

#[export] Instance result_monad : Monad result := {
  ret := fun A a => Ok a;
  bind := fun A B r k =>
    match r with
    | Ok a => k a
    | Raise e => Raise e
    end
}.

(** What reaches standard output: a line of text, or an f-string that ends
    in an exception, [print(f"...{e}")]; the text of [e] is the raising
    library's. *)
Inductive printed : Type :=
| Line (text : string)
| LineExn (text : string) (e : exn).

(** ** Data frames, as far as the resolver uses them *)

Module Pandas.

(** A cell of a frame read from HTML: a [str], the missing value [nan],
    or a number ([numpy.int64], [numpy.float64], [numpy.bool_]); a number
    is kept as the text [str()] gives for it, the one thing the resolver
    asks of it. *)
Inductive Scalar : Type :=
| Str (s : string)
| NaN
| Number (shown : string).

Definition py_str (v : Scalar) : string :=
  match v with
  | Str s => s
  | NaN => "nan"
  | Number shown => shown
  end.

Definition is_Str (v : Scalar) : bool :=
  match v with Str _ => true | _ => false end.

Definition Series : Type := list Scalar.

(** Column labels: the texts of the header cells, or, for a table
    without header cells, the positions 0, 1, ... *)
Inductive Index : Type :=
| TextIndex (labels : list string)
| RangeIndex (stop : nat).

Record DataFrame : Type := mkDataFrame {
  columns : Index;
  rows : list (list Scalar)
}.

(** [index.str.strip()]: the [.str] accessor exists on labels that are
    strings only. *)
Definition Index_str_strip (i : Index) : result Index :=
  match i with
  | TextIndex labels => Ok (TextIndex (map Py.strip labels))
  | RangeIndex _ => Raise AttributeError
  end.

(** [df.columns = cols] *)
Definition set_columns (df : DataFrame) (cols : Index) : DataFrame :=
  mkDataFrame cols (rows df).

Fixpoint position (key : string) (labels : list string) : option nat :=
  match labels with
  | [] => None
  | l :: rest =>
      if String.eqb l key then Some 0
      else option_map S (position key rest)
  end.

(** [df[key]] for a string key.  [read_html] gives repeated header texts
    distinct labels (X, X.1, ...), so a label names one column; a short
    row is filled with [nan]. *)
Definition getitem (df : DataFrame) (key : string) : result Series :=
  match columns df with
  | TextIndex labels =>
      match position key labels with
      | Some j => Ok (map (fun row => nth j row NaN) (rows df))
      | None => Raise (KeyError key)
      end
  | RangeIndex _ => Raise (KeyError key)
  end.

(** [series.str.strip()]: [.str] is refused on a column of numbers (a
    column whose cells are all empty is a column of floats); on a text
    column the strings are stripped and anything else becomes [nan]. *)
Definition Series_str_strip (s : Series) : result Series :=
  match s with
  | [] => Ok []
  | _ =>
      if existsb is_Str s
      then Ok (map (fun v => match v with
                             | Str t => Str (Py.strip t)
                             | _ => NaN
                             end) s)
      else Raise AttributeError
  end.

(** [series == text], element by element. *)
Definition Series_eq (s : Series) (text : string) : list bool :=
  map (fun v => match v with
                | Str t => String.eqb t text
                | _ => false
                end) s.

Fixpoint select {A : Type} (mask : list bool) (xs : list A) : list A :=
  match mask, xs with
  | b :: mask', x :: xs' =>
      if b then x :: select mask' xs' else select mask' xs'
  | _, _ => []
  end.

(** [df[mask]] for a boolean mask. *)
Definition getitem_mask (df : DataFrame) (mask : list bool) : DataFrame :=
  mkDataFrame (columns df) (select mask (rows df)).

Definition width (i : Index) : nat :=
  match i with
  | TextIndex labels => List.length labels
  | RangeIndex stop => stop
  end.

(** [df.empty]: one of the two axes has length zero. *)
Definition empty (df : DataFrame) : bool :=
  Nat.eqb (List.length (rows df)) 0 || Nat.eqb (width (columns df)) 0.

(** [series.iloc[0]] *)
Definition iloc0 (s : Series) : result Scalar :=
  match s with
  | v :: _ => Ok v
  | [] => Raise IndexError
  end.

End Pandas.
Import Pandas.

(** ** The document *)

(** A [<table>] element, by what [pd.read_html(str(table))] does with it:
    it raises (an element without any text, for one, gives [ValueError]),
    or its first frame is [df]. *)
Inductive Table : Type :=
| Broken (e : exn)
| Grid (df : DataFrame).

Definition read_html (t : Table) : result DataFrame :=
  match t with
  | Broken e => Raise e
  | Grid df => Ok df
  end.

(** The page body; [soup.find_all('table')] lists its table elements in
    document order. *)
Definition Html : Type := list Table.

Definition find_all_tables (html : Html) : list Table := html.

(** ** find_server_ip *)

(** How one turn of the [for] loop ends. *)
Inductive flow : Type :=
| Return (address : string)
| Continue.

(** Lines 85-90, the body of the inner [try]. *)
Definition search (df : DataFrame) (server_name hostname_column ip_column : string)
  : result flow :=
  hosts <- getitem df hostname_column ;;
  stripped <- Series_str_strip hosts ;;
  let server_row := getitem_mask df (Series_eq stripped server_name) in
  if negb (empty server_row) then
    ips <- getitem server_row ip_column ;;
    ip_address <- iloc0 ips ;;
    Ok (Return (Py.strip (py_str ip_address)))
  else Ok Continue.

(** Lines 76-93, one turn of the loop: only a [KeyError] of the inner
    [try] is caught. *)
Definition turn (table : Table) (server_name hostname_column ip_column : string)
  : result flow :=
  df <- read_html table ;;
  cols <- Index_str_strip (columns df) ;;
  let df := set_columns df cols in
  match search df server_name hostname_column ip_column with
  | Raise (KeyError _) => Ok Continue
  | r => r
  end.

(** Lines 75-95. *)
Fixpoint for_tables (tables : list Table)
  (server_name hostname_column ip_column : string) : result (option string) :=
  match tables with
  | [] => Ok None
  | table :: rest =>
      match turn table server_name hostname_column ip_column with
      | Ok (Return address) => Ok (Some address)
      | Ok Continue => for_tables rest server_name hostname_column ip_column
      | Raise e => Raise e
      end
  end.

(** Lines 67-99: what is printed, and the value returned ([None] is
    absent). *)
Definition find_server_ip (html_content : Html)
  (server_name hostname_column ip_column : string)
  : list printed * option string :=
  match for_tables (find_all_tables html_content)
          server_name hostname_column ip_column with
  | Ok r => ([], r)
  | Raise e => ([LineExn "Error parsing table data: " e], None)
  end.

(** ** The command-line driver *)

(** A program run: the effects in order, then how it ends. *)
Inductive event : Type :=
| Print (p : printed)
| Open (path : string)
| Getenv (name : string)
| NewConfluence (url username password : string)
| GetPage (page_id : string)
| Run (executable : string) (args : list string).

Inductive outcome (A : Type) : Type :=
| Value (a : A)
| Exited (code : Z)
| Uncaught (e : exn).
Arguments Value {A} a.
Arguments Exited {A} code.
Arguments Uncaught {A} e.

Definition io (A : Type) : Type := list event * outcome A.

#[export] Instance io_monad : Monad io := {
  ret := fun A a => ([], Value a);
  bind := fun A B c k =>
    match c with
    | (done, Value a) => let (more, o) := k a in (done ++ more, o)
    | (done, Exited code) => (done, Exited code)
    | (done, Uncaught e) => (done, Uncaught e)
    end
}.

Definition emit (e : event) : io unit := ([e], Value tt).
Definition print (p : printed) : io unit := emit (Print p).
(** A call of a function that prints and returns. *)
Definition call {A : Type} (r : list printed * A) : io A :=
  (map Print (fst r), Value (snd r)).
Definition sys_exit {A : Type} (code : Z) : io A := ([], Exited code).

(** The exit status of the process. *)
Definition status {A : Type} (o : outcome A) : Z :=
  match o with
  | Value _ => 0
  | Exited code => code
  | Uncaught _ => 1
  end.

(** [config.yaml] as [yaml.safe_load] gives it.  The document, and a
    section of it, is a mapping, a string, a list, or a value that holds
    nothing ([None], a number, a boolean, a date); the program asks
    [key in v] and [v[key]] of them.  An item of a list counts by the
    string it is, if it is one.  The value of a field is kept as the text
    an f-string shows for it. *)
Inductive YamlValue (M : Type) : Type :=
| YAtom
| YText (s : string)
| YList (items : list (option string))
| YMap (entries : M).
Arguments YAtom {M}.
Arguments YText {M} s.
Arguments YList {M} items.
Arguments YMap {M} entries.

Definition Fields : Type := list (string * string).
Definition Config : Type := YamlValue (list (string * YamlValue Fields)).

Fixpoint lookup {V : Type} (key : string) (d : list (string * V)) : option V :=
  match d with
  | [] => None
  | (k, v) :: rest => if String.eqb k key then Some v else lookup key rest
  end.

Definition contains {V : Type} (key : string) (d : list (string * V)) : bool :=
  match lookup key d with Some _ => true | None => false end.

(** [key in s] for two strings. *)
Fixpoint is_substring (key s : string) : bool :=
  String.prefix key s
  || match s with
     | EmptyString => false
     | String _ rest => is_substring key rest
     end.

(** [key in v] for a string [key]. *)
Definition py_in {V : Type} (key : string) (v : YamlValue (list (string * V)))
  : result bool :=
  match v with
  | YAtom => Raise TypeError
  | YText s => Ok (is_substring key s)
  | YList items =>
      Ok (existsb (fun i => match i with
                            | Some s => String.eqb s key
                            | None => false
                            end) items)
  | YMap entries => Ok (contains key entries)
  end.

(** [v[key]] for a string [key]. *)
Definition py_getitem {V : Type} (v : YamlValue (list (string * V))) (key : string)
  : result V :=
  match v with
  | YMap entries =>
      match lookup key entries with
      | Some x => Ok x
      | None => Raise (KeyError key)
      end
  | _ => Raise TypeError
  end.

(** An expression of [main] and its helpers outside every [try]: what it
    raises ends the run. *)
Definition eval {A : Type} (r : result A) : io A :=
  match r with
  | Ok a => ret a
  | Raise e => ([], Uncaught e)
  end.

Definition has {V : Type} (key : string) (v : YamlValue (list (string * V))) : io bool :=
  eval (py_in key v).

Definition item {V : Type} (v : YamlValue (list (string * V))) (key : string) : io V :=
  eval (py_getitem v key).

(** [config.yaml]: absent, not to be opened or decoded (an exception
    [read_config] does not catch), not YAML, or a document. *)
Inductive ConfigFile : Type :=
| NoFile
| Unreadable (e : exn)
| BadYaml (e : exn)
| Yaml (config : Config).

(** The page the store returns: [page['body']['storage']['value']] is the
    document, or the lookup raises. *)
Inductive Page : Type :=
| Body (html : Html)
| NoBody (e : exn).

Definition body_storage_value (page : Page) : io Html :=
  match page with
  | Body html => ret html
  | NoBody e => ([], Uncaught e)
  end.

(** What the program finds around it. *)
Record World : Type := mkWorld {
  argv : list string;
  config_yaml : ConfigFile;
  environ : list (string * string);
  (** [Confluence(url, username, password)]: the exception it raises, if any *)
  Confluence : string -> string -> string -> option exn;
  (** [confluence.get_page_by_id(page_id, expand='body.storage')] at [url] *)
  get_page_by_id : string -> string -> result Page
}.

Section Program.

Variable w : World.

Definition read_config : io Config :=
  emit (Open "config.yaml") ;;
  match config_yaml w with
  | Yaml config => ret config
  | NoFile =>
      print (Line "Error: config.yaml file not found") ;;
      sys_exit 1
  | BadYaml e =>
      print (LineExn "Error parsing config.yaml: " e) ;;
      sys_exit 1
  | Unreadable e => ([], Uncaught e)
  end.

Definition print_config (config : Config) : io unit :=
  confluence <- item config "confluence" ;;
  url <- item confluence "url" ;;
  print (Line ("Confluence URL: " ++ url)) ;;
  page_id <- item confluence "page_id" ;;
  print (Line ("Page ID: " ++ page_id)) ;;
  hostname <- item confluence "hostname_column_title" ;;
  print (Line ("Hostname Column: " ++ hostname)) ;;
  ip <- item confluence "ip_column_title" ;;
  print (Line ("IP Column: " ++ ip)).

Definition os_getenv (name : string) : io (option string) :=
  emit (Getenv name) ;;
  ret (lookup name (environ w)).

(** [not value] for a value that is a string or [None]. *)
Definition py_not (value : option string) : bool :=
  match value with
  | None => true
  | Some s => negb (Py.truthy s)
  end.

Definition or_empty (value : option string) : string :=
  match value with Some s => s | None => "" end.

(** The client is known by the address it was made for. *)
Definition authenticate_confluence (confluence_url : string) : io string :=
  okta_user <- os_getenv "OKTA_USER" ;;
  okta_password <- os_getenv "OKTA_PASSWORD" ;;
  if py_not okta_user || py_not okta_password then
    print (Line "Error: OKTA_USER or OKTA_PASSWORD environment variables not set") ;;
    sys_exit 1
  else
    emit (NewConfluence confluence_url (or_empty okta_user) (or_empty okta_password)) ;;
    match Confluence w confluence_url (or_empty okta_user) (or_empty okta_password) with
    | None => ret confluence_url
    | Some e =>
        print (LineExn "Error authenticating to Confluence: " e) ;;
        sys_exit 1
    end.

Definition get_page_content (confluence page_id : string) : io Page :=
  emit (GetPage page_id) ;;
  match get_page_by_id w confluence page_id with
  | Ok page => ret page
  | Raise e =>
      print (LineExn "Error retrieving page content: " e) ;;
      sys_exit 1
  end.

Definition required_fields : list string :=
  ["url"; "page_id"; "hostname_column_title"; "ip_column_title"].

(** Lines 109-112: each turn looks the section up again. *)
Fixpoint check_fields (fields : list string) (config : Config) : io unit :=
  match fields with
  | [] => ret tt
  | field :: rest =>
      section <- item config "confluence" ;;
      present <- has field section ;;
      if negb present then
        print (Line ("Error: '" ++ field ++ "' missing in confluence configuration")) ;;
        sys_exit 1
      else check_fields rest config
  end.

Definition validate_config (config : Config) : io unit :=
  present <- has "confluence" config ;;
  _ <- (if negb present then
             print (Line "Error: 'confluence' section missing in config.yaml") ;;
             sys_exit 1
           else ret tt) ;;
  check_fields required_fields config.

(** The text of lines 158-162: the closing triple quote of the f-string
    comes straight after the full stop. *)
Definition command_for (ip_address : string) : string :=
  "while ! ssh " ++ ip_address ++ "; do" ++ Py.newline
  ++ "      echo " ++ Py.quote ++ "Connection failed, retrying in 5 seconds..."
  ++ Py.quote ++ Py.newline
  ++ "      sleep 5" ++ Py.newline
  ++ "    done" ++ Py.newline
  ++ "    echo " ++ Py.quote ++ "Connection established.".

Definition main : io unit :=
  if negb (Nat.eqb (List.length (argv w)) 2) then
    print (Line "Usage: python script.py <server-name>") ;;
    sys_exit 1
  else
    let server_name := nth 1 (argv w) "" in
    config <- read_config ;;
    validate_config config ;;
    print_config config ;;
    confluence_config <- item config "confluence" ;;
    confluence_url <- item confluence_config "url" ;;
    page_id <- item confluence_config "page_id" ;;
    hostname_column <- item confluence_config "hostname_column_title" ;;
    ip_column <- item confluence_config "ip_column_title" ;;
    confluence <- authenticate_confluence confluence_url ;;
    page <- get_page_content confluence page_id ;;
    html <- body_storage_value page ;;
    ip_address <- call (find_server_ip html server_name hostname_column ip_column) ;;
    if py_not ip_address then
      print (Line ("Server '" ++ server_name ++ "' not found")) ;;
      sys_exit 1
    else
      let ip_address := or_empty ip_address in
      print (Line ("IP Address for " ++ server_name ++ ": " ++ ip_address)) ;;
      let command := command_for ip_address in
      emit (Run "/bin/bash" ["/bin/bash"; "-i"; "-c"; (command ++ "; exec bash")%string]).

End Program.

(** ** Vocabulary of the statements *)

(** The test the mask of line 85 applies to one hostname cell: a string
    whose stripped text is the query, as it was given. *)
Definition host_matches (server_name : string) (v : Scalar) : bool :=
  match v with
  | Str t => String.eqb (Py.strip t) server_name
  | _ => false
  end.

(** The cell of [row] in column [j]. *)
Definition cell (j : nat) (row : list Scalar) : Scalar := nth j row NaN.

Definition row_matches (server_name : string) (j : nat) (row : list Scalar) : bool :=
  host_matches server_name (cell j row).

(** A column on which [.str] works: it has no rows, or a string in it. *)
Definition text_column (j : nat) (rws : list (list Scalar)) : Prop :=
  rws = [] \/ exists row t, In row rws /\ cell j row = Str t.

(** The loop passes over the table: it reads it, finds nothing to return
    and raises nothing that ends the loop. *)
Definition passed_over (server_name hostname_column ip_column : string)
  (t : Table) : Prop :=
  turn t server_name hostname_column ip_column = Ok Continue.

(** The same, read off the table: its frame has text headers and, once they
    are stripped, it lacks the hostname column, or no row of the hostname
    column matches, or the address column is missing. *)
Inductive misses (server_name hostname_column ip_column : string)
  : Table -> Prop :=
| misses_hostname (labels : list string) (rws : list (list Scalar)) :
    position hostname_column (map Py.strip labels) = None ->
    misses server_name hostname_column ip_column
      (Grid (mkDataFrame (TextIndex labels) rws))
| misses_row (labels : list string) (rws : list (list Scalar)) (j : nat) :
    position hostname_column (map Py.strip labels) = Some j ->
    text_column j rws ->
    find (row_matches server_name j) rws = None ->
    misses server_name hostname_column ip_column
      (Grid (mkDataFrame (TextIndex labels) rws))
| misses_address (labels : list string) (rws : list (list Scalar)) (j : nat) :
    position hostname_column (map Py.strip labels) = Some j ->
    position ip_column (map Py.strip labels) = None ->
    text_column j rws ->
    misses server_name hostname_column ip_column
      (Grid (mkDataFrame (TextIndex labels) rws)).

(** The table raises an exception that ends the loop: it cannot be read,
    its labels are not text, or it has the hostname column, rows, and no
    string in that column. *)
Inductive raises (hostname_column : string) : Table -> exn -> Prop :=
| raises_read (e : exn) :
    raises hostname_column (Broken e) e
| raises_labels (stop : nat) (rws : list (list Scalar)) :
    raises hostname_column (Grid (mkDataFrame (RangeIndex stop) rws))
      AttributeError
| raises_hostname (labels : list string) (rws : list (list Scalar)) (j : nat) :
    position hostname_column (map Py.strip labels) = Some j ->
    rws <> [] ->
    (forall row, In row rws -> is_Str (cell j row) = false) ->
    raises hostname_column (Grid (mkDataFrame (TextIndex labels) rws))
      AttributeError.

(** Frames without blank text, as [read_html] builds them: it holds a
    blank cell of the page as [nan], never as an empty or white string. *)
Definition blank_free (html : Html) : Prop :=
  forall df row v,
    In (Grid df) html -> In row (rows df) -> In v row ->
    Py.strip (py_str v) <> "".

(** What the specification asks of the comparison: both sides trimmed. *)
Definition spec_matches (server_name cell_text : string) : bool :=
  String.eqb (Py.strip cell_text) (Py.strip server_name).

Definition error_line (e : exn) : printed :=
  LineExn "Error parsing table data: " e.

(** A run that gets as far as the lookup: one argument, a complete
    configuration, both credentials, a client and a page. *)
Record reaches_lookup (w : World)
  (server_name url page_id hostname_column ip_column user password : string)
  (page : Html) : Prop := {
  one_argument : exists program, argv w = [program; server_name];
  configured : exists config fields,
    config_yaml w = Yaml (YMap config)
    /\ lookup "confluence" config = Some (YMap fields)
    /\ lookup "url" fields = Some url
    /\ lookup "page_id" fields = Some page_id
    /\ lookup "hostname_column_title" fields = Some hostname_column
    /\ lookup "ip_column_title" fields = Some ip_column;
  has_user : lookup "OKTA_USER" (environ w) = Some user /\ Py.truthy user = true;
  has_password :
    lookup "OKTA_PASSWORD" (environ w) = Some password
    /\ Py.truthy password = true;
  client_made : Confluence w url user password = None;
  page_fetched : get_page_by_id w url page_id = Ok (Body page)
}.

(** What such a run has done when the lookup starts. *)
Definition preamble (url page_id hostname_column ip_column user password : string)
  : list event :=
  [Open "config.yaml";
   Print (Line ("Confluence URL: " ++ url));
   Print (Line ("Page ID: " ++ page_id));
   Print (Line ("Hostname Column: " ++ hostname_column));
   Print (Line ("IP Column: " ++ ip_column));
   Getenv "OKTA_USER";
   Getenv "OKTA_PASSWORD";
   NewConfluence url user password;
   GetPage page_id].

Definition not_found (server_name : string) : event :=
  Print (Line ("Server '" ++ server_name ++ "' not found")).

(** The text around the address in the argument of [bash -c]. *)
Definition command_head : string := "while ! ssh ".

Definition command_tail : string :=
  "; do" ++ Py.newline
  ++ "      echo " ++ Py.quote ++ "Connection failed, retrying in 5 seconds..."
  ++ Py.quote ++ Py.newline
  ++ "      sleep 5" ++ Py.newline
  ++ "    done" ++ Py.newline
  ++ "    echo " ++ Py.quote ++ "Connection established." ++ "; exec bash".

(** The configuration is a mapping with the section, itself a mapping
    with the four fields [main] reads. *)
Definition config_complete (config : Config) : Prop :=
  exists entries fields,
    config = YMap entries
    /\ lookup "confluence" entries = Some (YMap fields)
    /\ forall field, In field required_fields -> contains field fields = true.

(** What it takes to pass [validate_config]. *)
Definition passes (config : Config) : Prop :=
  exists entries section,
    config = YMap entries
    /\ lookup "confluence" entries = Some section
    /\ forall field, In field required_fields -> py_in field section = Ok true.

(** A run with one argument and a configuration that is loaded and
    complete, with these values. *)
Definition well_configured (w : World) (url page_id hostname_column ip_column : string)
  : Prop :=
  List.length (argv w) = 2
  /\ exists config fields,
       config_yaml w = Yaml (YMap config)
       /\ lookup "confluence" config = Some (YMap fields)
       /\ lookup "url" fields = Some url
       /\ lookup "page_id" fields = Some page_id
       /\ lookup "hostname_column_title" fields = Some hostname_column
       /\ lookup "ip_column_title" fields = Some ip_column.

(** What a configured run has done when it turns to the credentials. *)
Definition config_events (url page_id hostname_column ip_column : string)
  : list event :=
  [Open "config.yaml";
   Print (Line ("Confluence URL: " ++ url));
   Print (Line ("Page ID: " ++ page_id));
   Print (Line ("Hostname Column: " ++ hostname_column));
   Print (Line ("IP Column: " ++ ip_column))].

Definition missing_field (field : string) : event :=
  Print (Line ("Error: '" ++ field ++ "' missing in confluence configuration")).

(** Events that reach the document store, and the start of a process. *)
Definition is_network (e : event) : bool :=
  match e with
  | NewConfluence _ _ _ | GetPage _ => true
  | _ => false
  end.

Definition is_run (e : event) : bool :=
  match e with
  | Run _ _ => true
  | _ => false
  end.

(** The number of double quotes in a text. *)
Fixpoint count_quotes (s : string) : nat :=
  match s with
  | EmptyString => 0
  | String c rest =>
      (if Ascii.eqb c (ascii_of_nat 34) then 1 else 0) + count_quotes rest
  end.

(** The ways a run can go, one for each exit of [main]. *)
Inductive run_of (w : World) : Prop :=
| run_usage :
    List.length (argv w) <> 2 ->
    main w = ([Print (Line "Usage: python script.py <server-name>")], Exited 1) ->
    run_of w
| run_config_defect (line : printed) :
    List.length (argv w) = 2 ->
    main w = ([Open "config.yaml"; Print line], Exited 1) ->
    run_of w
| run_config_uncaught (e : exn) :
    List.length (argv w) = 2 ->
    main w = ([Open "config.yaml"], Uncaught e) ->
    run_of w
| run_no_credentials (url page_id hostname_column ip_column : string) :
    py_not (lookup "OKTA_USER" (environ w))
    || py_not (lookup "OKTA_PASSWORD" (environ w)) = true ->
    main w
    = (config_events url page_id hostname_column ip_column
         ++ [Getenv "OKTA_USER"; Getenv "OKTA_PASSWORD";
             Print (Line "Error: OKTA_USER or OKTA_PASSWORD environment variables not set")],
       Exited 1) ->
    run_of w
| run_client_error (url page_id hostname_column ip_column user password : string)
    (e : exn) :
    main w
    = (config_events url page_id hostname_column ip_column
         ++ [Getenv "OKTA_USER"; Getenv "OKTA_PASSWORD";
             NewConfluence url user password;
             Print (LineExn "Error authenticating to Confluence: " e)],
       Exited 1) ->
    run_of w
| run_fetch_error (url page_id hostname_column ip_column user password : string)
    (e : exn) :
    main w
    = (preamble url page_id hostname_column ip_column user password
         ++ [Print (LineExn "Error retrieving page content: " e)],
       Exited 1) ->
    run_of w
| run_no_body (url page_id hostname_column ip_column user password : string)
    (e : exn) :
    main w
    = (preamble url page_id hostname_column ip_column user password, Uncaught e) ->
    run_of w
| run_not_found (url page_id hostname_column ip_column user password : string)
    (out : list printed) :
    main w
    = (preamble url page_id hostname_column ip_column user password
         ++ map Print out ++ [not_found (nth 1 (argv w) "")],
       Exited 1) ->
    run_of w
| run_connects (url page_id hostname_column ip_column user password : string)
    (page : Html) (out : list printed) (ip_address : string) :
    get_page_by_id w url page_id = Ok (Body page) ->
    find_server_ip page (nth 1 (argv w) "") hostname_column ip_column
    = (out, Some ip_address) ->
    ip_address <> "" ->
    main w
    = (preamble url page_id hostname_column ip_column user password
         ++ map Print out
         ++ [Print (Line ("IP Address for " ++ nth 1 (argv w) "" ++ ": " ++ ip_address));
             Run "/bin/bash"
               ["/bin/bash"; "-i"; "-c";
                (command_head ++ ip_address ++ command_tail)%string]],
       Value tt) ->
    run_of w.

(** ** Sample documents and runs *)

Module Samples.

Definition frame (labels : list string) (rws : list (list Scalar)) : Table :=
  Grid (mkDataFrame (TextIndex labels) rws).

(** Header [Hostname | IP Address], one row [web01 | 10.0.0.5]. *)
Definition inventory : Table :=
  frame ["Hostname"; "IP Address"] [[Str "web01"; Str "10.0.0.5"]].

(** The same host with another address. *)
Definition replica : Table :=
  frame ["Hostname"; "IP Address"] [[Str "web01"; Str "10.0.0.9"]].

(** Padded cells and a repeated host. *)
Definition padded : Table :=
  frame [" Hostname"; "IP Address "]
    [[Str "db01"; Str "10.0.0.7"];
     [Str " web01 "; Str " 10.0.0.5 "];
     [Str "web01"; Str "10.0.0.6"]].

(** A table about something else. *)
Definition contacts : Table :=
  frame ["Team"; "Contact"] [[Str "web"; Str "ops"]].

(** Hostnames without addresses. *)
Definition racks : Table :=
  frame ["Hostname"; "Rack"] [[Str "web01"; Str "A3"]].

(** Hostname cells that are all numbers. *)
Definition numbered : Table :=
  frame ["Hostname"; "Rack"] [[Number "1"; Str "A3"]; [Number "2"; Str "B1"]].

(** A table without header cells. *)
Definition headerless : Table :=
  Grid (mkDataFrame (RangeIndex 2) [[Str "web01"; Str "10.0.0.5"]]).

(** A table element without any text. *)
Definition hollow : Table := Broken ValueError.

(** A matching row whose address cell is blank in the page. *)
Definition unfilled : Table :=
  frame ["Hostname"; "IP Address"] [[Str "web01"; NaN]].

(** An address cell with shell syntax in it. *)
Definition tricky : Table :=
  frame ["Hostname"; "IP Address"] [[Str "web01"; Str "10.0.0.5; id"]].

Definition settings_fields : Fields :=
  [("url", "https://wiki.example.org");
   ("page_id", "4242");
   ("hostname_column_title", "Hostname");
   ("ip_column_title", "IP Address")].

Definition settings : Config := YMap [("confluence", YMap settings_fields)].

Definition world (args : list string) (page : Html) : World :=
  mkWorld args (Yaml settings)
    [("OKTA_USER", "alice"); ("OKTA_PASSWORD", "secret")]
    (fun _ _ _ => None)
    (fun _ _ => Ok (Body page)).

End Samples.

(** * Properties *)

(** ** Stripping *)

Lemma lstrip_head (s rest : string) (c : ascii) :
  Py.lstrip s = String c rest -> Py.isspace c = false.
Proof.
  induction s as [| d s IH]; simpl.
  - discriminate.
  - destruct (Py.isspace d) eqn:E.
    + exact IH.
    + intros H. injection H as <- _. exact E.
Qed.

Lemma rstrip_head (s rest : string) (c d : ascii) :
  Py.rstrip (String c s) = String d rest -> d = c.
Proof.
  simpl. destruct (Py.rstrip s).
  - destruct (Py.isspace c); [discriminate |].
    intros H. injection H as <- _. reflexivity.
  - intros H. injection H as <- _. reflexivity.
Qed.

(** What [strip] returns does not start with white space. *)
Lemma strip_head (s rest : string) (c : ascii) :
  Py.strip s = String c rest -> Py.isspace c = false.
Proof.
  unfold Py.strip. destruct (Py.lstrip s) as [| d kept] eqn:E.
  - discriminate.
  - intros H. apply rstrip_head in H. subst c.
    exact (lstrip_head _ _ _ E).
Qed.

(** [rstrip] decides on the last character. *)
Lemma rstrip_fixed (s : string) (c : ascii) :
  Py.rstrip (s ++ String c EmptyString)
  = if Py.isspace c then Py.rstrip s else (s ++ String c EmptyString)%string.
Proof.
  induction s as [| d s IH]; simpl.
  - destruct (Py.isspace c); reflexivity.
  - rewrite IH. destruct (Py.isspace c) eqn:E.
    + reflexivity.
    + destruct s; reflexivity.
Qed.

(** ** Lists and masks *)

Lemma select_map_filter {A : Type} (f : A -> bool) (xs : list A) :
  select (map f xs) xs = filter f xs.
Proof.
  induction xs as [| x xs IH]; simpl.
  - reflexivity.
  - rewrite IH. reflexivity.
Qed.

Lemma filter_head_find {A : Type} (f : A -> bool) (xs : list A) :
  find f xs = hd_error (filter f xs).
Proof.
  induction xs as [| x xs IH]; simpl.
  - reflexivity.
  - destruct (f x); simpl; [reflexivity | exact IH].
Qed.

Lemma position_width (key : string) (labels : list string) (j : nat) :
  position key labels = Some j -> List.length labels <> 0.
Proof.
  destruct labels; simpl; [discriminate | intros _ H; discriminate H].
Qed.

Lemma mask_pointwise (server_name : string) (hosts : Series) :
  Series_eq (map (fun v => match v with
                           | Str t => Str (Py.strip t)
                           | _ => NaN
                           end) hosts) server_name
  = map (host_matches server_name) hosts.
Proof.
  unfold Series_eq.
  induction hosts as [| [t | | shown] hosts IH]; simpl; try rewrite IH; reflexivity.
Qed.

(** After [.str.strip()] and [== server_name] the mask is [host_matches]
    cell by cell. *)
Lemma mask_host_matches (server_name : string) (hosts stripped : Series) :
  Series_str_strip hosts = Ok stripped ->
  Series_eq stripped server_name = map (host_matches server_name) hosts.
Proof.
  unfold Series_str_strip.
  destruct hosts as [| v hosts].
  - intros H. injection H as <-. reflexivity.
  - destruct (existsb is_Str (v :: hosts)); [| discriminate].
    intros H. injection H as <-.
    apply (mask_pointwise server_name (v :: hosts)).
Qed.

Lemma str_accessor_text_column (j : nat) (rws : list (list Scalar)) :
  text_column j rws ->
  exists stripped, Series_str_strip (map (fun row => nth j row NaN) rws) = Ok stripped.
Proof.
  intros [-> | (row & t & Hin & Hcell)].
  - exists []. reflexivity.
  - unfold Series_str_strip.
    destruct rws as [| r rws]; [destruct Hin |].
    cbn [map].
    replace (existsb is_Str (nth j r NaN :: map (fun row0 => nth j row0 NaN) rws))
      with true.
    + eexists. reflexivity.
    + symmetry. apply existsb_exists. exists (Str t). split; [| reflexivity].
      change (In (Str t) (map (fun row0 => nth j row0 NaN) (r :: rws))).
      apply in_map_iff. exists row. split; [exact Hcell | exact Hin].
Qed.

Lemma str_accessor_numbers (j : nat) (rws : list (list Scalar)) :
  rws <> [] ->
  (forall row, In row rws -> is_Str (cell j row) = false) ->
  Series_str_strip (map (fun row => nth j row NaN) rws) = Raise AttributeError.
Proof.
  intros Hne Hall. unfold Series_str_strip.
  destruct rws as [| r rws]; [contradiction |].
  cbn [map].
  replace (existsb is_Str (nth j r NaN :: map (fun row0 => nth j row0 NaN) rws))
    with false; [reflexivity |].
  symmetry. apply not_true_is_false. intros H.
  apply existsb_exists in H. destruct H as (v & Hin & Hv).
  change (In v (map (fun row0 => nth j row0 NaN) (r :: rws))) in Hin.
  apply in_map_iff in Hin. destruct Hin as (row & <- & Hrow).
  apply Hall in Hrow. unfold cell in Hrow. congruence.
Qed.

Lemma matching_row_text_column (server_name : string) (j : nat)
  (rws : list (list Scalar)) (row : list Scalar) :
  In row rws -> row_matches server_name j row = true -> text_column j rws.
Proof.
  intros Hin Hm. right. unfold row_matches, host_matches in Hm.
  destruct (cell j row) as [t | |] eqn:E; try discriminate.
  exists row, t. split; assumption.
Qed.

(** ** One table *)

Section OneTable.

Variables server_name hostname_column ip_column : string.
Variable labels : list string.
Variable rws : list (list Scalar).

Let df : DataFrame := mkDataFrame (TextIndex labels) rws.

Lemma search_no_hostname :
  position hostname_column labels = None ->
  search df server_name hostname_column ip_column
  = Raise (KeyError hostname_column).
Proof.
  intros H. unfold search, getitem. cbn. rewrite H. reflexivity.
Qed.

Lemma search_numbers (j : nat) :
  position hostname_column labels = Some j ->
  rws <> [] ->
  (forall row, In row rws -> is_Str (cell j row) = false) ->
  search df server_name hostname_column ip_column = Raise AttributeError.
Proof.
  intros H Hne Hall. unfold search, getitem. cbn. rewrite H. cbn.
  rewrite (str_accessor_numbers j rws Hne Hall). reflexivity.
Qed.

Lemma search_text_column (j : nat) :
  position hostname_column labels = Some j ->
  text_column j rws ->
  search df server_name hostname_column ip_column
  = match find (row_matches server_name j) rws with
    | None => Ok Continue
    | Some row =>
        match position ip_column labels with
        | Some k => Ok (Return (Py.strip (py_str (cell k row))))
        | None => Raise (KeyError ip_column)
        end
    end.
Proof.
  intros H Htext.
  destruct (str_accessor_text_column j rws Htext) as [stripped Hs].
  assert (Hmask : select (Series_eq stripped server_name) rws
                  = filter (row_matches server_name j) rws).
  { rewrite (mask_host_matches _ _ _ Hs), map_map.
    exact (select_map_filter (row_matches server_name j) rws). }
  unfold search, getitem, getitem_mask, empty.
  cbn [columns rows bind result_monad width df].
  rewrite H. cbn [bind result_monad]. rewrite Hs. rewrite Hmask.
  rewrite filter_head_find.
  destruct (filter (row_matches server_name j) rws) as [| row kept].
  - reflexivity.
  - pose proof (position_width _ _ _ H) as Hw.
    destruct (List.length labels) as [| n] eqn:El; [contradiction |].
    cbn. destruct (position ip_column labels) as [k |]; reflexivity.
Qed.

End OneTable.

Section Turn.

Variables server_name hostname_column ip_column : string.
Variable labels : list string.
Variable rws : list (list Scalar).

Let table : Table := Grid (mkDataFrame (TextIndex labels) rws).
Let stripped : list string := map Py.strip labels.

Lemma turn_frame :
  turn table server_name hostname_column ip_column
  = match search (mkDataFrame (TextIndex stripped) rws)
            server_name hostname_column ip_column with
    | Raise (KeyError _) => Ok Continue
    | r => r
    end.
Proof. reflexivity. Qed.

(** The hostname column is not among the headers. *)
Lemma turn_no_hostname :
  position hostname_column stripped = None ->
  turn table server_name hostname_column ip_column = Ok Continue.
Proof.
  intros H. rewrite turn_frame, search_no_hostname by exact H. reflexivity.
Qed.

(** No row of a text hostname column matches. *)
Lemma turn_no_match (j : nat) :
  position hostname_column stripped = Some j ->
  text_column j rws ->
  find (row_matches server_name j) rws = None ->
  turn table server_name hostname_column ip_column = Ok Continue.
Proof.
  intros H Ht Hf.
  rewrite turn_frame, (search_text_column _ _ _ _ _ j H Ht), Hf. reflexivity.
Qed.

(** The address column is not among the headers. *)
Lemma turn_no_address (j : nat) :
  position hostname_column stripped = Some j ->
  position ip_column stripped = None ->
  text_column j rws ->
  turn table server_name hostname_column ip_column = Ok Continue.
Proof.
  intros H Ha Ht.
  rewrite turn_frame, (search_text_column _ _ _ _ _ j H Ht), Ha.
  destruct (find (row_matches server_name j) rws); reflexivity.
Qed.

(** The first matching row gives the address. *)
Lemma turn_match (j k : nat) (row : list Scalar) :
  position hostname_column stripped = Some j ->
  position ip_column stripped = Some k ->
  find (row_matches server_name j) rws = Some row ->
  turn table server_name hostname_column ip_column
  = Ok (Return (Py.strip (py_str (cell k row)))).
Proof.
  intros H Ha Hf.
  assert (Ht : text_column j rws).
  { apply find_some in Hf. destruct Hf as [Hin Hm].
    exact (matching_row_text_column _ _ _ _ Hin Hm). }
  rewrite turn_frame, (search_text_column _ _ _ _ _ j H Ht), Hf, Ha.
  reflexivity.
Qed.

(** A hostname column of numbers ends the loop. *)
Lemma turn_numbers (j : nat) :
  position hostname_column stripped = Some j ->
  rws <> [] ->
  (forall row, In row rws -> is_Str (cell j row) = false) ->
  turn table server_name hostname_column ip_column = Raise AttributeError.
Proof.
  intros H Hne Hall.
  rewrite turn_frame, (search_numbers _ _ _ _ _ j H Hne Hall). reflexivity.
Qed.

End Turn.

(** ** The loop *)

Section Loop.

Variables server_name hostname_column ip_column : string.

Let skip := passed_over server_name hostname_column ip_column.

Lemma for_tables_passed_over (before rest : list Table) :
  Forall skip before ->
  for_tables (before ++ rest) server_name hostname_column ip_column
  = for_tables rest server_name hostname_column ip_column.
Proof.
  induction 1 as [| t before Ht _ IH]; simpl.
  - reflexivity.
  - unfold skip, passed_over in Ht. rewrite Ht. exact IH.
Qed.

Lemma for_tables_return (t : Table) (rest : list Table) (address : string) :
  turn t server_name hostname_column ip_column = Ok (Return address) ->
  for_tables (t :: rest) server_name hostname_column ip_column
  = Ok (Some address).
Proof. intros H. simpl. rewrite H. reflexivity. Qed.

Lemma for_tables_raise (t : Table) (rest : list Table) (e : exn) :
  turn t server_name hostname_column ip_column = Raise e ->
  for_tables (t :: rest) server_name hostname_column ip_column = Raise e.
Proof. intros H. simpl. rewrite H. reflexivity. Qed.

(** The loop ends in one of three ways, and each shows in the document. *)
Lemma for_tables_cases (tables : list Table) :
  (Forall skip tables
   /\ for_tables tables server_name hostname_column ip_column = Ok None)
  \/ (exists before t after address,
        tables = before ++ t :: after /\ Forall skip before
        /\ turn t server_name hostname_column ip_column = Ok (Return address)
        /\ for_tables tables server_name hostname_column ip_column
           = Ok (Some address))
  \/ (exists before t after e,
        tables = before ++ t :: after /\ Forall skip before
        /\ turn t server_name hostname_column ip_column = Raise e
        /\ for_tables tables server_name hostname_column ip_column = Raise e).
Proof.
  induction tables as [| t tables IH].
  - left. split; [constructor | reflexivity].
  - destruct (turn t server_name hostname_column ip_column) as [[address |] | e] eqn:Et.
    + right. left. exists [], t, tables, address.
      repeat split; [constructor | exact Et | simpl; rewrite Et; reflexivity].
    + destruct IH as [[Hall Hnone] | [(b & u & a & address & -> & Hb & Hu & Hr)
                                     | (b & u & a & e & -> & Hb & Hu & Hr)]].
      * left. split; [constructor; assumption | simpl; rewrite Et; exact Hnone].
      * right. left. exists (t :: b), u, a, address.
        repeat split; [constructor; assumption | exact Hu
                      | simpl; rewrite Et; exact Hr].
      * right. right. exists (t :: b), u, a, e.
        repeat split; [constructor; assumption | exact Hu
                      | simpl; rewrite Et; exact Hr].
    + right. right. exists [], t, tables, e.
      repeat split; [constructor | exact Et | simpl; rewrite Et; reflexivity].
Qed.

End Loop.

(** ** Tables the loop passes over *)

Lemma text_column_or_numbers (j : nat) (rws : list (list Scalar)) :
  text_column j rws
  \/ (rws <> [] /\ forall row, In row rws -> is_Str (cell j row) = false).
Proof.
  destruct rws as [| r rws]; [left; left; reflexivity |].
  destruct (existsb (fun row => is_Str (cell j row)) (r :: rws)) eqn:E.
  - left. right. apply existsb_exists in E. destruct E as (row & Hin & Hs).
    destruct (cell j row) as [t | |] eqn:Ec; try discriminate.
    exists row, t. split; assumption.
  - right. split; [discriminate |]. intros row Hin.
    destruct (is_Str (cell j row)) eqn:Es; [| reflexivity].
    assert (existsb (fun row0 => is_Str (cell j row0)) (r :: rws) = true) as Ht.
    { apply existsb_exists. exists row. split; assumption. }
    congruence.
Qed.

Lemma misses_passed_over (server_name hostname_column ip_column : string)
  (t : Table) :
  misses server_name hostname_column ip_column t ->
  passed_over server_name hostname_column ip_column t.
Proof.
  unfold passed_over.
  intros [labels rws H | labels rws j H Ht Hf | labels rws j H Ha Ht].
  - apply turn_no_hostname. exact H.
  - apply (turn_no_match _ _ _ _ _ j); assumption.
  - apply (turn_no_address _ _ _ _ _ j); assumption.
Qed.

Lemma passed_over_misses (server_name hostname_column ip_column : string)
  (t : Table) :
  passed_over server_name hostname_column ip_column t ->
  misses server_name hostname_column ip_column t.
Proof.
  unfold passed_over.
  destruct t as [e | [[labels | stop] rws]]; try discriminate.
  destruct (position hostname_column (map Py.strip labels)) as [j |] eqn:H.
  - destruct (text_column_or_numbers j rws) as [Ht | [Hne Hall]].
    + destruct (find (row_matches server_name j) rws) as [row |] eqn:Hf.
      * destruct (position ip_column (map Py.strip labels)) as [k |] eqn:Ha.
        -- rewrite (turn_match _ _ _ _ _ j k row H Ha Hf). discriminate.
        -- intros _. apply (misses_address _ _ _ _ _ j); assumption.
      * intros _. apply (misses_row _ _ _ _ _ j); assumption.
    + rewrite (turn_numbers _ _ _ _ _ j H Hne Hall). discriminate.
  - intros _. apply misses_hostname. exact H.
Qed.

Lemma Forall_misses_passed_over (server_name hostname_column ip_column : string)
  (tables : list Table) :
  Forall (misses server_name hostname_column ip_column) tables <->
  Forall (passed_over server_name hostname_column ip_column) tables.
Proof.
  split; apply Forall_impl; intros t.
  - apply misses_passed_over.
  - apply passed_over_misses.
Qed.

Lemma turn_raises (server_name hostname_column ip_column : string)
  (t : Table) (e : exn) :
  turn t server_name hostname_column ip_column = Raise e
  <-> raises hostname_column t e.
Proof.
  split.
  - destruct t as [e' | [[labels | stop] rws]].
    + intros H. injection H as <-. constructor.
    + destruct (position hostname_column (map Py.strip labels)) as [j |] eqn:H.
      * destruct (text_column_or_numbers j rws) as [Ht | [Hne Hall]].
        -- destruct (find (row_matches server_name j) rws) as [row |] eqn:Hf.
           ++ destruct (position ip_column (map Py.strip labels)) as [k |] eqn:Ha.
              ** rewrite (turn_match _ _ _ _ _ j k row H Ha Hf). discriminate.
              ** rewrite (turn_no_address _ _ _ _ _ j H Ha Ht). discriminate.
           ++ rewrite (turn_no_match _ _ _ _ _ j H Ht Hf). discriminate.
        -- rewrite (turn_numbers _ _ _ _ _ j H Hne Hall).
           intros E. injection E as <-.
           apply (raises_hostname _ _ _ j); assumption.
      * rewrite (turn_no_hostname _ _ _ _ _ H). discriminate.
    + intros H. injection H as <-. constructor.
  - intros [e' | stop rws | labels rws j H Hne Hall].
    + reflexivity.
    + reflexivity.
    + apply (turn_numbers _ _ _ _ _ j); assumption.
Qed.

(** ** The resolver *)

Section Resolver.

Variables server_name hostname_column ip_column : string.

Let resolve (html : Html) : list printed * option string :=
  find_server_ip html server_name hostname_column ip_column.

Lemma find_server_ip_after_misses (before rest : list Table) :
  Forall (misses server_name hostname_column ip_column) before ->
  resolve (before ++ rest) = resolve rest.
Proof.
  intros H. apply Forall_misses_passed_over in H.
  unfold resolve, find_server_ip, find_all_tables.
  rewrite (for_tables_passed_over _ _ _ before rest H). reflexivity.
Qed.

Lemma find_server_ip_return (t : Table) (rest : list Table) (address : string) :
  turn t server_name hostname_column ip_column = Ok (Return address) ->
  resolve (t :: rest) = ([], Some address).
Proof.
  intros H. unfold resolve, find_server_ip, find_all_tables.
  rewrite (for_tables_return _ _ _ t rest address H). reflexivity.
Qed.

Lemma find_server_ip_raise (t : Table) (rest : list Table) (e : exn) :
  turn t server_name hostname_column ip_column = Raise e ->
  resolve (t :: rest) = ([error_line e], None).
Proof.
  intros H. unfold resolve, find_server_ip, find_all_tables.
  rewrite (for_tables_raise _ _ _ t rest e H). reflexivity.
Qed.

Lemma find_server_ip_miss (t : Table) (rest : list Table) :
  misses server_name hostname_column ip_column t ->
  resolve (t :: rest) = resolve rest.
Proof.
  intros H. apply (find_server_ip_after_misses [t] rest).
  constructor; [exact H | constructor].
Qed.

(** The first matching row of a table with both columns. *)
Lemma find_first_row (j : nat) (r1 r2 : list (list Scalar)) (row : list Scalar) :
  (forall r, In r r1 -> row_matches server_name j r = false) ->
  row_matches server_name j row = true ->
  find (row_matches server_name j) (r1 ++ row :: r2) = Some row.
Proof.
  intros Hno Hyes. induction r1 as [| r r1 IH]; simpl.
  - rewrite Hyes. reflexivity.
  - rewrite (Hno r (or_introl eq_refl)). apply IH.
    intros r' Hin. apply Hno. right. exact Hin.
Qed.

End Resolver.

(** ** Matching (C1) *)

(** C1, as the specification has it, fails: the query is compared as it
    was given.  The padded query [" web01 "] finds nothing in a table that
    holds [web01], while the same query stripped finds the address, and a
    comparison that trims both sides would accept the pair. *)
Lemma C1_padded_query_finds_nothing :
  find_server_ip [Samples.inventory] " web01 " "Hostname" "IP Address"
  = ([], None)
  /\ find_server_ip [Samples.inventory] (Py.strip " web01 ") "Hostname" "IP Address"
     = ([], Some "10.0.0.5")
  /\ spec_matches " web01 " "web01" = true
  /\ host_matches " web01 " (Str "web01") = false.
Proof. repeat split; reflexivity. Qed.

(** C1, amended: in a table with both columns the resolver finds an
    address exactly when some hostname cell is a string whose stripped text
    equals [server_name] as given, character for character: the cell is
    trimmed, the query is not, and nothing folds case. *)
Theorem C1_match_is_equality_with_stripped_cell :
  forall (labels : list string) (rws : list (list Scalar))
         (server_name hostname_column ip_column : string) (j k : nat),
    position hostname_column (map Py.strip labels) = Some j ->
    position ip_column (map Py.strip labels) = Some k ->
    (exists address,
       find_server_ip [Grid (mkDataFrame (TextIndex labels) rws)]
         server_name hostname_column ip_column = ([], Some address))
    <-> (exists row t,
           In row rws /\ cell j row = Str t /\ Py.strip t = server_name).
Proof.
  intros labels rws server_name hostname_column ip_column j k Hh Ha. split.
  - intros [address Hfound].
    destruct (find (row_matches server_name j) rws) as [row |] eqn:Hf.
    + apply find_some in Hf. destruct Hf as [Hin Hm].
      unfold row_matches, host_matches in Hm.
      destruct (cell j row) as [t | |] eqn:Ec; try discriminate.
      exists row, t. repeat split; try assumption.
      apply String.eqb_eq. exact Hm.
    + exfalso.
      destruct (text_column_or_numbers j rws) as [Ht | [Hne Hall]].
      * rewrite (find_server_ip_miss _ _ _ _ []) in Hfound.
        -- discriminate Hfound.
        -- apply (misses_row _ _ _ _ _ j); assumption.
      * rewrite (find_server_ip_raise _ _ _ _ [] AttributeError) in Hfound.
        -- discriminate Hfound.
        -- apply (turn_numbers _ _ _ _ _ j); assumption.
  - intros (row & t & Hin & Hc & Hs).
    assert (Hm : row_matches server_name j row = true).
    { unfold row_matches, host_matches. rewrite Hc. apply String.eqb_eq. exact Hs. }
    destruct (find (row_matches server_name j) rws) as [first |] eqn:Hf.
    + exists (Py.strip (py_str (cell k first))).
      apply find_server_ip_return.
      apply (turn_match _ _ _ _ _ j k first); assumption.
    + pose proof (find_none _ _ Hf row Hin) as Hno. congruence.
Qed.

Lemma C1_match_witness :
  position "Hostname" (map Py.strip [" Hostname"; "IP Address "]) = Some 0
  /\ position "IP Address" (map Py.strip [" Hostname"; "IP Address "]) = Some 1
  /\ ((exists address,
         find_server_ip [Samples.padded] "web01" "Hostname" "IP Address"
         = ([], Some address))
      <-> (exists row t,
             In row [[Str "db01"; Str "10.0.0.7"];
                     [Str " web01 "; Str " 10.0.0.5 "];
                     [Str "web01"; Str "10.0.0.6"]]
             /\ cell 0 row = Str t /\ Py.strip t = "web01")).
Proof.
  split; [reflexivity | split; [reflexivity |]].
  apply (C1_match_is_equality_with_stripped_cell
           [" Hostname"; "IP Address "]
           [[Str "db01"; Str "10.0.0.7"];
            [Str " web01 "; Str " 10.0.0.5 "];
            [Str "web01"; Str "10.0.0.6"]]
           "web01" "Hostname" "IP Address" 0 1); reflexivity.
Defined.

(** The pairs the specification names, on the code: a padded cell matches
    the bare query, and case is kept. *)
Example padded_cell_matches :
  find_server_ip [Samples.padded] "web01" "Hostname" "IP Address"
  = ([], Some "10.0.0.5").
Proof. reflexivity. Qed.

Example case_is_kept :
  find_server_ip [Samples.inventory] "WEB01" "Hostname" "IP Address"
  = ([], None).
Proof. reflexivity. Qed.

(** ** Tables that cannot be read (C2) *)

(** C2, as the specification has it, fails: a table that cannot be read is
    not skipped.  The document holds a table element without text and then
    the inventory; the resolver prints the error and returns absent, though
    the inventory alone resolves the name. *)
Lemma C2_unreadable_table_is_not_skipped :
  find_server_ip [Samples.hollow; Samples.inventory] "web01" "Hostname" "IP Address"
  = ([LineExn "Error parsing table data: " ValueError], None)
  /\ find_server_ip [Samples.inventory] "web01" "Hostname" "IP Address"
     = ([], Some "10.0.0.5").
Proof. split; reflexivity. Qed.

(** C2, amended: the resolver never raises.  When reading a table raises,
    after tables that were passed over, it prints one line with the
    exception and returns absent at once, whatever follows in the
    document; and when every table is passed over it returns absent and
    prints nothing. *)
Theorem C2_unreadable_table_ends_resolution :
  forall (before after : list Table) (e : exn)
         (server_name hostname_column ip_column : string),
    Forall (misses server_name hostname_column ip_column) before ->
    find_server_ip (before ++ Broken e :: after)
      server_name hostname_column ip_column
    = ([LineExn "Error parsing table data: " e], None)
    /\ find_server_ip before server_name hostname_column ip_column
       = ([], None).
Proof.
  intros before after e server_name hostname_column ip_column Hb. split.
  - rewrite (find_server_ip_after_misses _ _ _ before _ Hb).
    apply find_server_ip_raise. reflexivity.
  - rewrite <- (app_nil_r before).
    rewrite (find_server_ip_after_misses _ _ _ before [] Hb). reflexivity.
Qed.

Lemma C2_unreadable_witness :
  Forall (misses "web01" "Hostname" "IP Address") [Samples.contacts]
  /\ find_server_ip ([Samples.contacts] ++ Broken ValueError :: [Samples.inventory])
       "web01" "Hostname" "IP Address"
     = ([LineExn "Error parsing table data: " ValueError], None)
  /\ find_server_ip [Samples.contacts] "web01" "Hostname" "IP Address"
     = ([], None).
Proof.
  assert (H : Forall (misses "web01" "Hostname" "IP Address") [Samples.contacts]).
  { constructor; [| constructor]. apply misses_hostname. reflexivity. }
  split; [exact H |].
  exact (C2_unreadable_table_ends_resolution
           [Samples.contacts] [Samples.inventory] ValueError
           "web01" "Hostname" "IP Address" H).
Defined.

(** ** The first match wins (C3) *)

(** C3, as the specification has it, fails on a document whose matching
    tables come after one that cannot be read: two tables hold [web01], and
    the resolver returns absent instead of the first one's address. *)
Lemma C3_no_first_match_behind_unreadable_table :
  find_server_ip [Samples.hollow; Samples.inventory; Samples.replica]
    "web01" "Hostname" "IP Address"
  = ([LineExn "Error parsing table data: " ValueError], None)
  /\ find_server_ip [Samples.inventory; Samples.replica]
       "web01" "Hostname" "IP Address"
     = ([], Some "10.0.0.5").
Proof. split; reflexivity. Qed.

(** C3, amended: when the tables before it were passed over, the first
    table with both columns and a matching row decides: the resolver
    returns the address of its first matching row, whatever the rows after
    that row and the tables after that table hold. *)
Theorem C3_first_row_of_first_table_wins :
  forall (before after : list Table) (labels : list string)
         (above below : list (list Scalar)) (row : list Scalar)
         (server_name hostname_column ip_column : string) (j k : nat),
    Forall (misses server_name hostname_column ip_column) before ->
    position hostname_column (map Py.strip labels) = Some j ->
    position ip_column (map Py.strip labels) = Some k ->
    (forall r, In r above -> row_matches server_name j r = false) ->
    row_matches server_name j row = true ->
    find_server_ip
      (before ++ Grid (mkDataFrame (TextIndex labels) (above ++ row :: below))
              :: after)
      server_name hostname_column ip_column
    = ([], Some (Py.strip (py_str (cell k row)))).
Proof.
  intros before after labels above below row server_name hostname_column
         ip_column j k Hb Hh Ha Hno Hyes.
  rewrite (find_server_ip_after_misses _ _ _ before _ Hb).
  apply find_server_ip_return.
  apply (turn_match _ _ _ _ _ j k row Hh Ha).
  apply find_first_row; assumption.
Qed.

Lemma C3_first_match_witness :
  Forall (misses "web01" "Hostname" "IP Address") [Samples.contacts; Samples.racks]
  /\ position "Hostname" (map Py.strip [" Hostname"; "IP Address "]) = Some 0
  /\ position "IP Address" (map Py.strip [" Hostname"; "IP Address "]) = Some 1
  /\ (forall r, In r [[Str "db01"; Str "10.0.0.7"]] ->
                row_matches "web01" 0 r = false)
  /\ row_matches "web01" 0 [Str " web01 "; Str " 10.0.0.5 "] = true
  /\ find_server_ip
       ([Samples.contacts; Samples.racks] ++ Samples.padded :: [Samples.replica])
       "web01" "Hostname" "IP Address"
     = ([], Some "10.0.0.5").
Proof.
  assert (Hb : Forall (misses "web01" "Hostname" "IP Address")
                 [Samples.contacts; Samples.racks]).
  { constructor; [| constructor; [| constructor]].
    - apply misses_hostname. reflexivity.
    - apply (misses_address _ _ _ _ _ 0); [reflexivity | reflexivity |].
      right. exists [Str "web01"; Str "A3"], "web01".
      split; [left; reflexivity | reflexivity]. }
  assert (Hno : forall r, In r [[Str "db01"; Str "10.0.0.7"]] ->
                          row_matches "web01" 0 r = false).
  { intros r [<- | []]. reflexivity. }
  split; [exact Hb |].
  split; [reflexivity |]. split; [reflexivity |].
  split; [exact Hno |]. split; [reflexivity |].
  exact (C3_first_row_of_first_table_wins
           [Samples.contacts; Samples.racks] [Samples.replica]
           [" Hostname"; "IP Address "]
           [[Str "db01"; Str "10.0.0.7"]] [[Str "web01"; Str "10.0.0.6"]]
           [Str " web01 "; Str " 10.0.0.5 "]
           "web01" "Hostname" "IP Address" 0 1
           Hb eq_refl eq_refl Hno eq_refl).
Defined.

(** ** A table without the address column (C4) *)

(** C4, as the specification has it, fails on a table whose hostname cells
    are all numbers: it has the hostname header and no address header, and
    the resolver stops there with an error instead of going on to the
    inventory. *)
Lemma C4_numbered_hostnames_stop_resolution :
  find_server_ip [Samples.numbered; Samples.inventory]
    "web01" "Hostname" "IP Address"
  = ([LineExn "Error parsing table data: " AttributeError], None)
  /\ find_server_ip [Samples.inventory] "web01" "Hostname" "IP Address"
     = ([], Some "10.0.0.5").
Proof. split; reflexivity. Qed.

(** C4, amended: a table with the hostname header and without the address
    header, whose hostname column holds text (or has no rows), is passed
    over, row match or not: the resolver gives what the rest of the
    document gives. *)
Theorem C4_table_without_address_column_is_passed_over :
  forall (before rest : list Table) (labels : list string)
         (rws : list (list Scalar))
         (server_name hostname_column ip_column : string) (j : nat),
    Forall (misses server_name hostname_column ip_column) before ->
    position hostname_column (map Py.strip labels) = Some j ->
    position ip_column (map Py.strip labels) = None ->
    text_column j rws ->
    find_server_ip
      (before ++ Grid (mkDataFrame (TextIndex labels) rws) :: rest)
      server_name hostname_column ip_column
    = find_server_ip rest server_name hostname_column ip_column.
Proof.
  intros before rest labels rws server_name hostname_column ip_column j
         Hb Hh Ha Ht.
  rewrite (find_server_ip_after_misses _ _ _ before _ Hb).
  apply find_server_ip_miss.
  apply (misses_address _ _ _ _ _ j); assumption.
Qed.

Lemma C4_passed_over_witness :
  Forall (misses "web01" "Hostname" "IP Address") []
  /\ position "Hostname" (map Py.strip ["Hostname"; "Rack"]) = Some 0
  /\ position "IP Address" (map Py.strip ["Hostname"; "Rack"]) = None
  /\ text_column 0 [[Str "web01"; Str "A3"]]
  /\ find_server_ip ([] ++ Samples.racks :: [Samples.inventory])
       "web01" "Hostname" "IP Address"
     = find_server_ip [Samples.inventory] "web01" "Hostname" "IP Address".
Proof.
  assert (Ht : text_column 0 [[Str "web01"; Str "A3"]]).
  { right. exists [Str "web01"; Str "A3"], "web01".
    split; [left; reflexivity | reflexivity]. }
  split; [constructor |].
  split; [reflexivity |]. split; [reflexivity |]. split; [exact Ht |].
  exact (C4_table_without_address_column_is_passed_over
           [] [Samples.inventory] ["Hostname"; "Rack"] [[Str "web01"; Str "A3"]]
           "web01" "Hostname" "IP Address" 0
           (Forall_nil _) eq_refl eq_refl Ht).
Defined.

(** ** The address that is returned (C5) *)

(** C5, as the specification has it, fails twice.  When the one table
    with both headers and the one matching row stands behind a table that
    cannot be read, nothing is returned.  And the address is not always the
    cell as it stands: a matching row whose address cell is blank in the
    page, [nan] in the frame, gives the text [nan]. *)
Lemma C5_unreadable_table_and_missing_cell :
  find_server_ip [Samples.contacts; Samples.hollow; Samples.inventory]
    "web01" "Hostname" "IP Address"
  = ([LineExn "Error parsing table data: " ValueError], None)
  /\ find_server_ip [Samples.contacts; Samples.inventory]
       "web01" "Hostname" "IP Address"
     = ([], Some "10.0.0.5")
  /\ find_server_ip [Samples.unfilled] "web01" "Hostname" "IP Address"
     = ([], Some "nan").
Proof. repeat split; reflexivity. Qed.

(** C5, amended: when the tables before it were passed over, and one row
    of the table with both headers matches, alone among its rows, the
    resolver returns what [str()] gives for that row's address cell,
    stripped and otherwise as it stands: the text itself for a text cell,
    whatever it looks like. *)
Theorem C5_address_cell_returned_stripped :
  forall (before after : list Table) (labels : list string)
         (above below : list (list Scalar)) (row : list Scalar)
         (server_name hostname_column ip_column : string) (j k : nat),
    Forall (misses server_name hostname_column ip_column) before ->
    position hostname_column (map Py.strip labels) = Some j ->
    position ip_column (map Py.strip labels) = Some k ->
    (forall r, In r (above ++ below) -> row_matches server_name j r = false) ->
    row_matches server_name j row = true ->
    find_server_ip
      (before ++ Grid (mkDataFrame (TextIndex labels) (above ++ row :: below))
              :: after)
      server_name hostname_column ip_column
    = ([], Some (Py.strip (py_str (cell k row))))
    /\ (forall text, cell k row = Str text ->
          find_server_ip
            (before ++ Grid (mkDataFrame (TextIndex labels) (above ++ row :: below))
                    :: after)
            server_name hostname_column ip_column
          = ([], Some (Py.strip text))).
Proof.
  intros before after labels above below row server_name hostname_column
         ip_column j k Hb Hh Ha Hno Hyes.
  assert (Hres : find_server_ip
            (before ++ Grid (mkDataFrame (TextIndex labels) (above ++ row :: below))
                    :: after)
            server_name hostname_column ip_column
          = ([], Some (Py.strip (py_str (cell k row))))).
  { rewrite (find_server_ip_after_misses _ _ _ before _ Hb).
    apply find_server_ip_return.
    apply (turn_match _ _ _ _ _ j k row Hh Ha).
    apply find_first_row; [| exact Hyes].
    intros r Hin. apply Hno. apply in_or_app. left. exact Hin. }
  split; [exact Hres |].
  intros text Hc. rewrite Hres, Hc. reflexivity.
Qed.

Lemma C5_address_witness :
  Forall (misses "db01" "Hostname" "IP Address") [Samples.contacts]
  /\ position "Hostname" (map Py.strip ["Hostname"; "IP Address"]) = Some 0
  /\ position "IP Address" (map Py.strip ["Hostname"; "IP Address"]) = Some 1
  /\ (forall r, In r ([[Str "web01"; Str "10.0.0.5"]] ++ []) ->
                row_matches "db01" 0 r = false)
  /\ row_matches "db01" 0 [Str "db01 "; Str " not-an-address "] = true
  /\ find_server_ip
       ([Samples.contacts]
          ++ Samples.frame ["Hostname"; "IP Address"]
               ([[Str "web01"; Str "10.0.0.5"]]
                  ++ [Str "db01 "; Str " not-an-address "] :: [])
          :: [])
       "db01" "Hostname" "IP Address"
     = ([], Some "not-an-address").
Proof.
  assert (Hb : Forall (misses "db01" "Hostname" "IP Address") [Samples.contacts]).
  { constructor; [| constructor]. apply misses_hostname. reflexivity. }
  assert (Hno : forall r, In r ([[Str "web01"; Str "10.0.0.5"]] ++ []) ->
                          row_matches "db01" 0 r = false).
  { intros r [<- | []]. reflexivity. }
  split; [exact Hb |].
  split; [reflexivity |]. split; [reflexivity |].
  split; [exact Hno |]. split; [reflexivity |].
  exact (proj1 (C5_address_cell_returned_stripped
           [Samples.contacts] [] ["Hostname"; "IP Address"]
           [[Str "web01"; Str "10.0.0.5"]] []
           [Str "db01 "; Str " not-an-address "]
           "db01" "Hostname" "IP Address" 0 1
           Hb eq_refl eq_refl Hno eq_refl)).
Defined.

(** ** A document without tables (C6) *)

(** C6: for a document that contains no table the resolver returns absent
    (and prints nothing), whatever the name and the column titles. *)
Theorem C6_no_tables_absent :
  forall (server_name hostname_column ip_column : string),
    find_server_ip [] server_name hostname_column ip_column = ([], None).
Proof. intros. reflexivity. Qed.

(** ** Effects of the resolver (C7) *)

(** C7, as the specification has it, fails: the resolver writes to
    standard output when a table cannot be read. *)
Lemma C7_resolver_prints :
  fst (find_server_ip [Samples.hollow] "web01" "Hostname" "IP Address")
  = [LineExn "Error parsing table data: " ValueError]
  /\ fst (find_server_ip [Samples.hollow] "web01" "Hostname" "IP Address") <> [].
Proof. split; [reflexivity | discriminate]. Qed.

(** C7, amended: two runs of the resolver on equal inputs return and
    print the same, and it has one side effect.  When a table, after tables
    that were passed over, raises an exception that the inner handler does
    not catch (it cannot be read, its labels are not text, or its hostname
    column holds no string), the resolver prints one line naming that
    exception and returns absent; on a document without such a table it
    prints nothing. *)
Theorem C7_output_only_when_a_table_raises :
  forall (html html' : Html)
         (server_name server_name' hostname_column hostname_column'
          ip_column ip_column' : string),
    html = html' -> server_name = server_name' ->
    hostname_column = hostname_column' -> ip_column = ip_column' ->
    find_server_ip html server_name hostname_column ip_column
    = find_server_ip html' server_name' hostname_column' ip_column'
    /\ (forall before t after e,
          html = before ++ t :: after ->
          Forall (misses server_name hostname_column ip_column) before ->
          raises hostname_column t e ->
          find_server_ip html server_name hostname_column ip_column
          = ([LineExn "Error parsing table data: " e], None))
    /\ ((forall before t after e,
           html = before ++ t :: after ->
           Forall (misses server_name hostname_column ip_column) before ->
           ~ raises hostname_column t e) ->
        fst (find_server_ip html server_name hostname_column ip_column) = []).
Proof.
  intros html html' s s' h h' a a' <- <- <- <-.
  split; [reflexivity |]. split.
  - intros before t after e -> Hb Hr.
    rewrite (find_server_ip_after_misses _ _ _ before _ Hb).
    apply find_server_ip_raise. apply turn_raises. exact Hr.
  - intros Hnone. unfold find_server_ip, find_all_tables.
    destruct (for_tables_cases s h a html)
      as [[_ Hr] | [(b & t & af & address & _ & _ & _ & Hr)
                   | (b & t & af & e & Hdoc & Hb & Ht & Hr)]].
    + rewrite Hr. reflexivity.
    + rewrite Hr. reflexivity.
    + exfalso. apply (Hnone b t af e Hdoc).
      * apply Forall_misses_passed_over. exact Hb.
      * apply (turn_raises s h a). exact Ht.
Qed.

Lemma C7_output_witness :
  [Samples.contacts; Samples.headerless; Samples.inventory]
  = [Samples.contacts; Samples.headerless; Samples.inventory]
  /\ Forall (misses "web01" "Hostname" "IP Address") [Samples.contacts]
  /\ raises "Hostname" Samples.headerless AttributeError
  /\ find_server_ip [Samples.contacts; Samples.headerless; Samples.inventory]
       "web01" "Hostname" "IP Address"
     = ([LineExn "Error parsing table data: " AttributeError], None).
Proof.
  assert (Hb : Forall (misses "web01" "Hostname" "IP Address") [Samples.contacts]).
  { constructor; [| constructor]. apply misses_hostname. reflexivity. }
  assert (Hr : raises "Hostname" Samples.headerless AttributeError)
    by apply raises_labels.
  split; [reflexivity |]. split; [exact Hb |]. split; [exact Hr |].
  exact (proj1 (proj2 (C7_output_only_when_a_table_raises
           [Samples.contacts; Samples.headerless; Samples.inventory]
           [Samples.contacts; Samples.headerless; Samples.inventory]
           "web01" "web01" "Hostname" "Hostname" "IP Address" "IP Address"
           eq_refl eq_refl eq_refl eq_refl))
         [Samples.contacts] Samples.headerless [Samples.inventory]
         AttributeError eq_refl Hb Hr).
Defined.

(** ** The driver *)

Lemma main_wrong_arguments (w : World) :
  List.length (argv w) <> 2 ->
  main w = ([Print (Line "Usage: python script.py <server-name>")], Exited 1).
Proof.
  intros H. unfold main.
  destruct (Nat.eqb (List.length (argv w)) 2) eqn:E.
  - apply Nat.eqb_eq in E. contradiction.
  - reflexivity.
Qed.

Lemma lookup_contains {V : Type} (key : string) (d : list (string * V)) (v : V) :
  lookup key d = Some v -> contains key d = true.
Proof. intros H. unfold contains. rewrite H. reflexivity. Qed.

Lemma lookup_item {V : Type} (key : string) (d : list (string * V)) (v : V) :
  lookup key d = Some v -> item (YMap d) key = ([], Value v).
Proof. intros H. unfold item, py_getitem. rewrite H. reflexivity. Qed.

Lemma lookup_has {V : Type} (key : string) (d : list (string * V)) (v : V) :
  lookup key d = Some v -> has key (YMap d) = ([], Value true).
Proof.
  intros H. unfold has, py_in. rewrite (lookup_contains _ _ _ H). reflexivity.
Qed.

Section Startup.

Variable w : World.
Variables server_name url page_id hostname_column ip_column user password : string.
Variable config : list (string * YamlValue Fields).
Variable fields : Fields.

Hypothesis Hsection : lookup "confluence" config = Some (YMap fields).
Hypothesis Hurl : lookup "url" fields = Some url.
Hypothesis Hpage_id : lookup "page_id" fields = Some page_id.
Hypothesis Hhostname : lookup "hostname_column_title" fields = Some hostname_column.
Hypothesis Hip : lookup "ip_column_title" fields = Some ip_column.

Lemma read_config_loaded (document : Config) :
  config_yaml w = Yaml document ->
  read_config w = ([Open "config.yaml"], Value document).
Proof. intros H. unfold read_config. rewrite H. reflexivity. Qed.

Lemma validate_config_complete : validate_config (YMap config) = ([], Value tt).
Proof.
  unfold validate_config, required_fields.
  rewrite (lookup_has _ _ _ Hsection).
  cbn [bind io_monad negb ret check_fields app].
  rewrite !(lookup_item _ _ _ Hsection). cbn [bind io_monad app].
  unfold has, py_in.
  rewrite (lookup_contains _ _ _ Hurl), (lookup_contains _ _ _ Hpage_id),
    (lookup_contains _ _ _ Hhostname), (lookup_contains _ _ _ Hip).
  reflexivity.
Qed.

Lemma print_config_complete :
  print_config (YMap config)
  = ([Print (Line ("Confluence URL: " ++ url));
      Print (Line ("Page ID: " ++ page_id));
      Print (Line ("Hostname Column: " ++ hostname_column));
      Print (Line ("IP Column: " ++ ip_column))], Value tt).
Proof.
  unfold print_config.
  rewrite (lookup_item _ _ _ Hsection). cbn [bind io_monad].
  unfold item, py_getitem. rewrite Hurl, Hpage_id, Hhostname, Hip.
  reflexivity.
Qed.

Lemma authenticate_confluence_made :
  lookup "OKTA_USER" (environ w) = Some user -> Py.truthy user = true ->
  lookup "OKTA_PASSWORD" (environ w) = Some password ->
  Py.truthy password = true ->
  Confluence w url user password = None ->
  authenticate_confluence w url
  = ([Getenv "OKTA_USER"; Getenv "OKTA_PASSWORD";
      NewConfluence url user password], Value url).
Proof.
  intros Hu Hut Hp Hpt Hc. unfold authenticate_confluence, os_getenv.
  rewrite Hu, Hp. cbn [bind io_monad emit ret app py_not or_empty].
  rewrite Hut, Hpt. cbn [negb orb]. rewrite Hc. reflexivity.
Qed.

Lemma get_page_content_fetched (page : Page) :
  get_page_by_id w url page_id = Ok page ->
  get_page_content w url page_id = ([GetPage page_id], Value page).
Proof. intros H. unfold get_page_content. rewrite H. reflexivity. Qed.

End Startup.

Lemma append_assoc (a b c : string) : ((a ++ b) ++ c = a ++ (b ++ c))%string.
Proof.
  induction a as [| ch a IH]; simpl; [reflexivity | rewrite IH; reflexivity].
Qed.

Lemma command_around_address (ip_address : string) :
  (command_for ip_address ++ "; exec bash"
   = command_head ++ ip_address ++ command_tail)%string.
Proof.
  unfold command_for, command_head, command_tail.
  repeat rewrite append_assoc. reflexivity.
Qed.

(** Runs the driver up to the call of the resolver. *)
Ltac run_to_lookup H :=
  destruct H as [[?program Hargv] (?config & ?fields & Hc & Hs & Hu & Hp & Hh & Hi)
                   [Huser Hut] [Hpass Hpt] Hclient Hpage];
  unfold main; rewrite Hargv;
  cbn [List.length Nat.eqb negb nth];
  rewrite (read_config_loaded _ _ Hc); cbn [bind io_monad];
  rewrite (validate_config_complete _ _ _ _ _ _ Hs Hu Hp Hh Hi);
  rewrite (print_config_complete _ _ _ _ _ _ Hs Hu Hp Hh Hi);
  rewrite (lookup_item _ _ _ Hs); cbn [bind io_monad];
  unfold item, py_getitem; rewrite Hu, Hp, Hh, Hi;
  cbn [eval ret bind io_monad app];
  rewrite (authenticate_confluence_made _ _ _ _ Huser Hut Hpass Hpt Hclient);
  cbn [bind io_monad];
  rewrite (get_page_content_fetched _ _ _ _ Hpage);
  cbn [bind io_monad body_storage_value ret app].

Lemma main_not_found (w : World)
  (server_name url page_id hostname_column ip_column user password : string)
  (page : Html) (out : list printed) (found : option string) :
  reaches_lookup w server_name url page_id hostname_column ip_column
    user password page ->
  find_server_ip page server_name hostname_column ip_column = (out, found) ->
  py_not found = true ->
  main w
  = (preamble url page_id hostname_column ip_column user password
       ++ map Print out ++ [not_found server_name],
     Exited 1).
Proof.
  intros H Hfound Hnot. run_to_lookup H.
  rewrite Hfound. unfold call. cbn [fst snd bind io_monad].
  rewrite Hnot. cbn [print emit sys_exit bind io_monad].
  unfold preamble, not_found. cbn [app]. reflexivity.
Qed.

Lemma main_connects (w : World)
  (server_name url page_id hostname_column ip_column user password : string)
  (page : Html) (out : list printed) (ip_address : string) :
  reaches_lookup w server_name url page_id hostname_column ip_column
    user password page ->
  find_server_ip page server_name hostname_column ip_column
  = (out, Some ip_address) ->
  Py.truthy ip_address = true ->
  main w
  = (preamble url page_id hostname_column ip_column user password
       ++ map Print out
       ++ [Print (Line ("IP Address for " ++ server_name ++ ": " ++ ip_address));
           Run "/bin/bash"
             ["/bin/bash"; "-i"; "-c";
              (command_head ++ ip_address ++ command_tail)%string]],
     Value tt).
Proof.
  intros H Hfound Htrue. run_to_lookup H.
  rewrite Hfound. unfold call. cbn [fst snd bind io_monad py_not or_empty].
  rewrite Htrue. cbn [negb print emit bind io_monad].
  rewrite command_around_address.
  unfold preamble. cbn [app]. reflexivity.
Qed.

Lemma sample_world_reaches_lookup (program server_name : string) (page : Html) :
  reaches_lookup (Samples.world [program; server_name] page) server_name
    "https://wiki.example.org" "4242" "Hostname" "IP Address" "alice" "secret"
    page.
Proof.
  constructor; cbn.
  - exists program. reflexivity.
  - exists [("confluence", YMap Samples.settings_fields)], Samples.settings_fields.
    repeat split; reflexivity.
  - split; reflexivity.
  - split; reflexivity.
  - reflexivity.
  - reflexivity.
Qed.

(** ** Command-line arguments (C8) *)

(** C8: when [sys.argv] does not hold the script and exactly one argument,
    the run consists of the usage line and an exit with status 1: no file
    is opened, no variable read, no connection made. *)
Theorem C8_usage_unless_one_argument :
  forall (w : World),
    List.length (argv w) <> 2 ->
    main w = ([Print (Line "Usage: python script.py <server-name>")], Exited 1)
    /\ status (snd (main w)) <> 0%Z.
Proof.
  intros w H. rewrite (main_wrong_arguments w H).
  split; [reflexivity | discriminate].
Qed.

Lemma C8_usage_witness :
  List.length (argv (Samples.world ["ssh.py"] [Samples.inventory])) <> 2
  /\ main (Samples.world ["ssh.py"] [Samples.inventory])
     = ([Print (Line "Usage: python script.py <server-name>")], Exited 1)
  /\ List.length (argv (Samples.world ["ssh.py"; "web01"; "db01"] [Samples.inventory])) <> 2
  /\ main (Samples.world ["ssh.py"; "web01"; "db01"] [Samples.inventory])
     = ([Print (Line "Usage: python script.py <server-name>")], Exited 1).
Proof.
  assert (H1 : List.length (argv (Samples.world ["ssh.py"] [Samples.inventory])) <> 2)
    by (cbn; lia).
  assert (H3 : List.length
                 (argv (Samples.world ["ssh.py"; "web01"; "db01"] [Samples.inventory]))
               <> 2) by (cbn; lia).
  split; [exact H1 |].
  split; [exact (proj1 (C8_usage_unless_one_argument _ H1)) |].
  split; [exact H3 |].
  exact (proj1 (C8_usage_unless_one_argument _ H3)).
Defined.

(** ** An address that strips to nothing (C9) *)

Lemma find_server_ip_never_blank (html : Html)
  (server_name hostname_column ip_column : string) (out : list printed) :
  blank_free html ->
  find_server_ip html server_name hostname_column ip_column <> (out, Some "").
Proof.
  intros Hfree Hfound.
  unfold find_server_ip, find_all_tables in Hfound.
  destruct (for_tables_cases server_name hostname_column ip_column html)
    as [[_ Hr] | [(b & t & af & address & Hdoc & _ & Ht & Hr)
                 | (b & t & af & e & _ & _ & _ & Hr)]];
    rewrite Hr in Hfound; try discriminate.
  injection Hfound as _ Haddr. subst address.
  destruct t as [e | [[labels | stop] rws]]; try discriminate.
  destruct (position hostname_column (map Py.strip labels)) as [j |] eqn:H.
  2: { rewrite (turn_no_hostname _ _ _ _ _ H) in Ht. discriminate. }
  destruct (text_column_or_numbers j rws) as [Htext | [Hne Hall]].
  2: { rewrite (turn_numbers _ _ _ _ _ j H Hne Hall) in Ht. discriminate. }
  destruct (find (row_matches server_name j) rws) as [row |] eqn:Hf.
  2: { rewrite (turn_no_match _ _ _ _ _ j H Htext Hf) in Ht. discriminate. }
  destruct (position ip_column (map Py.strip labels)) as [k |] eqn:Ha.
  2: { rewrite (turn_no_address _ _ _ _ _ j H Ha Htext) in Ht. discriminate. }
  rewrite (turn_match _ _ _ _ _ j k row H Ha Hf) in Ht.
  injection Ht as Hblank.
  apply find_some in Hf. destruct Hf as [Hin _].
  unfold cell in Hblank.
  destruct (nth_in_or_default k row NaN) as [Hcell | Hcell].
  - apply (Hfree (mkDataFrame (TextIndex labels) rws) row (nth k row NaN));
      try assumption.
    subst html. apply in_or_app. right. left. reflexivity.
  - rewrite Hcell in Hblank. discriminate Hblank.
Qed.

(** C9, as stated, fails on the program: a matching row whose address
    cell is blank in the page is not treated like a miss.  The frame holds
    [nan] for the cell, the resolver returns the text [nan], and the run
    announces that address and starts the connection loop for it. *)
Lemma C9_blank_address_cell_starts_connection :
  find_server_ip [Samples.unfilled] "web01" "Hostname" "IP Address"
  = ([], Some "nan")
  /\ main (Samples.world ["ssh.py"; "web01"] [Samples.unfilled])
     = (preamble "https://wiki.example.org" "4242" "Hostname" "IP Address"
          "alice" "secret"
          ++ [Print (Line "IP Address for web01: nan");
              Run "/bin/bash"
                ["/bin/bash"; "-i"; "-c";
                 (command_head ++ "nan" ++ command_tail)%string]],
        Value tt).
Proof.
  split; [reflexivity |].
  exact (main_connects _ _ _ _ _ _ _ _ _ _ _
           (sample_world_reaches_lookup "ssh.py" "web01" [Samples.unfilled])
           eq_refl eq_refl).
Qed.

(** C9, amended: the test of line 150 does not tell an empty string from
    absent: whenever the resolver returns either, the run is the line
    [Server '<name>' not found] and exit status 1.  But a blank address
    cell does not get the program there.  On frames without blank text, as
    pandas builds them, the resolver never returns the empty string; and
    when the address cell of the matching row is missing, the run announces
    the address [nan] and starts the connection loop. *)
Theorem C9_empty_address_is_a_miss_but_blank_cell_is_not :
  forall (w : World)
         (server_name url page_id hostname_column ip_column user password : string)
         (page : Html),
    reaches_lookup w server_name url page_id hostname_column ip_column
      user password page ->
    (forall out found,
       find_server_ip page server_name hostname_column ip_column = (out, found) ->
       found = Some "" \/ found = None ->
       main w
       = (preamble url page_id hostname_column ip_column user password
            ++ map Print out
            ++ [Print (Line ("Server '" ++ server_name ++ "' not found"))],
          Exited 1))
    /\ (blank_free page ->
        forall out,
          find_server_ip page server_name hostname_column ip_column
          <> (out, Some ""))
    /\ (forall before after labels above below row j k,
          page = before
                   ++ Grid (mkDataFrame (TextIndex labels) (above ++ row :: below))
                   :: after ->
          Forall (misses server_name hostname_column ip_column) before ->
          position hostname_column (map Py.strip labels) = Some j ->
          position ip_column (map Py.strip labels) = Some k ->
          (forall r, In r above -> row_matches server_name j r = false) ->
          row_matches server_name j row = true ->
          cell k row = NaN ->
          main w
          = (preamble url page_id hostname_column ip_column user password
               ++ [Print (Line ("IP Address for " ++ server_name ++ ": nan"));
                   Run "/bin/bash"
                     ["/bin/bash"; "-i"; "-c";
                      (command_head ++ "nan" ++ command_tail)%string]],
             Value tt)).
Proof.
  intros w s url page_id h a user password page Hw.
  split; [| split].
  - intros out found Hfound Hfalsy.
    apply (main_not_found _ _ _ _ _ _ _ _ _ _ _ Hw Hfound).
    destruct Hfalsy as [-> | ->]; reflexivity.
  - intros Hfree out. apply find_server_ip_never_blank. exact Hfree.
  - intros before after labels above below row j k Hpage Hb Hh Ha Hno Hyes Hnan.
    assert (Hfound : find_server_ip page s h a = ([], Some "nan")).
    { rewrite Hpage, (find_server_ip_after_misses _ _ _ before _ Hb).
      apply find_server_ip_return.
      rewrite (turn_match _ _ _ _ _ j k row Hh Ha
                 (find_first_row _ _ _ _ _ Hno Hyes)).
      rewrite Hnan. reflexivity. }
    rewrite (main_connects w _ _ _ _ _ _ _ _ [] "nan" Hw Hfound eq_refl).
    reflexivity.
Qed.

Lemma C9_blank_cell_witness :
  reaches_lookup (Samples.world ["ssh.py"; "web01"] [Samples.unfilled]) "web01"
    "https://wiki.example.org" "4242" "Hostname" "IP Address" "alice" "secret"
    [Samples.unfilled]
  /\ blank_free [Samples.unfilled]
  /\ find_server_ip [Samples.unfilled] "web01" "Hostname" "IP Address"
     <> ([], Some "")
  /\ main (Samples.world ["ssh.py"; "web01"] [Samples.unfilled])
     = (preamble "https://wiki.example.org" "4242" "Hostname" "IP Address"
          "alice" "secret"
          ++ [Print (Line ("IP Address for " ++ "web01" ++ ": nan"));
              Run "/bin/bash"
                ["/bin/bash"; "-i"; "-c";
                 (command_head ++ "nan" ++ command_tail)%string]],
        Value tt).
Proof.
  assert (Hw : reaches_lookup (Samples.world ["ssh.py"; "web01"] [Samples.unfilled])
                 "web01" "https://wiki.example.org" "4242" "Hostname"
                 "IP Address" "alice" "secret" [Samples.unfilled])
    by apply sample_world_reaches_lookup.
  assert (Hfree : blank_free [Samples.unfilled]).
  { intros df row v [E | []] Hrow Hv. injection E as <-.
    destruct Hrow as [<- | []].
    destruct Hv as [<- | [<- | []]]; discriminate. }
  split; [exact Hw |]. split; [exact Hfree |].
  split.
  - exact (proj1 (proj2 (C9_empty_address_is_a_miss_but_blank_cell_is_not
             _ _ _ _ _ _ _ _ _ Hw)) Hfree []).
  - apply (proj2 (proj2 (C9_empty_address_is_a_miss_but_blank_cell_is_not
             _ _ _ _ _ _ _ _ _ Hw))
             [] [] ["Hostname"; "IP Address"] [] [] [Str "web01"; NaN] 0 1).
    + reflexivity.
    + constructor.
    + reflexivity.
    + reflexivity.
    + intros r [].
    + reflexivity.
    + reflexivity.
Defined.

(** ** The command given to the shell (C10) *)

(** C10: for every address the resolver returns (other than the empty
    string, which never gets this far), the run ends with [/bin/bash]
    started on [-i -c <command>], and the command is a fixed text, the
    address exactly as returned, and a fixed text: nothing is quoted,
    escaped or removed. *)
Theorem C10_address_verbatim_in_command :
  forall (w : World)
         (server_name url page_id hostname_column ip_column user password : string)
         (page : Html) (out : list printed) (ip_address : string),
    reaches_lookup w server_name url page_id hostname_column ip_column
      user password page ->
    find_server_ip page server_name hostname_column ip_column
    = (out, Some ip_address) ->
    ip_address <> "" ->
    main w
    = (preamble url page_id hostname_column ip_column user password
         ++ map Print out
         ++ [Print (Line ("IP Address for " ++ server_name ++ ": " ++ ip_address));
             Run "/bin/bash"
               ["/bin/bash"; "-i"; "-c";
                (command_head ++ ip_address ++ command_tail)%string]],
       Value tt).
Proof.
  intros w server_name url page_id hostname_column ip_column user password
         page out ip_address Hw Hfound Hne.
  apply (main_connects _ _ _ _ _ _ _ _ _ _ _ Hw Hfound).
  destruct ip_address; [contradiction | reflexivity].
Qed.

Lemma C10_command_witness :
  reaches_lookup (Samples.world ["ssh.py"; "web01"] [Samples.tricky]) "web01"
    "https://wiki.example.org" "4242" "Hostname" "IP Address" "alice" "secret"
    [Samples.tricky]
  /\ find_server_ip [Samples.tricky] "web01" "Hostname" "IP Address"
     = ([], Some "10.0.0.5; id")
  /\ "10.0.0.5; id" <> ""
  /\ main (Samples.world ["ssh.py"; "web01"] [Samples.tricky])
     = (preamble "https://wiki.example.org" "4242" "Hostname" "IP Address"
          "alice" "secret"
          ++ map Print []
          ++ [Print (Line ("IP Address for " ++ "web01" ++ ": " ++ "10.0.0.5; id"));
              Run "/bin/bash"
                ["/bin/bash"; "-i"; "-c";
                 (command_head ++ "10.0.0.5; id" ++ command_tail)%string]],
        Value tt).
Proof.
  assert (Hne : "10.0.0.5; id" <> "") by discriminate.
  split; [apply sample_world_reaches_lookup |].
  split; [reflexivity |].
  split; [exact Hne |].
  exact (C10_address_verbatim_in_command
           (Samples.world ["ssh.py"; "web01"] [Samples.tricky]) "web01"
           "https://wiki.example.org" "4242" "Hostname" "IP Address"
           "alice" "secret" [Samples.tricky] [] "10.0.0.5; id"
           (sample_world_reaches_lookup "ssh.py" "web01" [Samples.tricky])
           eq_refl Hne).
Defined.

(** ** The scenarios of the specification *)

Example scenario_found :
  find_server_ip [Samples.inventory] "web01" "Hostname" "IP Address"
  = ([], Some "10.0.0.5").
Proof. reflexivity. Qed.

Example scenario_not_found :
  find_server_ip [Samples.inventory] "web02" "Hostname" "IP Address" = ([], None)
  /\ main (Samples.world ["ssh.py"; "web02"] [Samples.inventory])
     = (preamble "https://wiki.example.org" "4242" "Hostname" "IP Address"
          "alice" "secret" ++ [not_found "web02"],
        Exited 1).
Proof.
  split; [reflexivity |].
  exact (main_not_found _ _ _ _ _ _ _ _ _ _ _
           (sample_world_reaches_lookup "ssh.py" "web02" [Samples.inventory])
           eq_refl eq_refl).
Qed.

Example scenario_second_table :
  find_server_ip [Samples.contacts; Samples.inventory]
    "web01" "Hostname" "IP Address"
  = ([], Some "10.0.0.5").
Proof. reflexivity. Qed.

(** A blank address cell of the page gives [nan], which the driver takes
    for an address. *)
Example missing_address_cell :
  find_server_ip
    [Samples.frame ["Hostname"; "IP Address"] [[Str "web01"; NaN]]]
    "web01" "Hostname" "IP Address"
  = ([], Some "nan").
Proof. reflexivity. Qed.

(** * Further properties of the resolver *)

(** ** Stripping twice *)

Lemma lstrip_fixed (c : ascii) (rest : string) :
  Py.isspace c = false -> Py.lstrip (String c rest) = String c rest.
Proof. intros H. simpl. rewrite H. reflexivity. Qed.

Lemma rstrip_idempotent (s : string) : Py.rstrip (Py.rstrip s) = Py.rstrip s.
Proof.
  induction s as [| c s IH]; simpl.
  - reflexivity.
  - destruct (Py.rstrip s) as [| d kept] eqn:E.
    + destruct (Py.isspace c) eqn:Ec; simpl; [reflexivity |].
      rewrite Ec. reflexivity.
    + change (Py.rstrip (String c (String d kept))) with
        (match Py.rstrip (String d kept) with
         | EmptyString => if Py.isspace c then EmptyString else String c EmptyString
         | String _ _ as k => String c k
         end).
      rewrite IH. reflexivity.
Qed.

Lemma strip_idempotent (s : string) : Py.strip (Py.strip s) = Py.strip s.
Proof.
  destruct (Py.strip s) as [| c rest] eqn:E.
  - reflexivity.
  - pose proof (strip_head _ _ _ E) as Hc.
    unfold Py.strip. rewrite (lstrip_fixed c rest Hc).
    rewrite <- E. unfold Py.strip. apply rstrip_idempotent.
Qed.

Lemma position_In (key : string) (labels : list string) (j : nat) :
  position key labels = Some j -> In key labels.
Proof.
  revert j. induction labels as [| l labels IH]; simpl; intros j.
  - discriminate.
  - destruct (String.eqb l key) eqn:E.
    + intros _. left. apply String.eqb_eq. exact E.
    + destruct (position key labels) as [i |]; [| discriminate].
      intros _. right. exact (IH i eq_refl).
Qed.

(** A title found among stripped headers is itself stripped. *)
Lemma position_stripped (key : string) (labels : list string) (j : nat) :
  position key (map Py.strip labels) = Some j -> Py.strip key = key.
Proof.
  intros H. apply position_In in H. apply in_map_iff in H.
  destruct H as (l & <- & _). apply strip_idempotent.
Qed.

Lemma row_matches_stripped (server_name : string) (j : nat) (row : list Scalar) :
  row_matches server_name j row = true ->
  exists t, cell j row = Str t /\ Py.strip t = server_name.
Proof.
  unfold row_matches, host_matches.
  destruct (cell j row) as [t | |]; try discriminate.
  intros H. exists t. split; [reflexivity | apply String.eqb_eq; exact H].
Qed.

(** ** How one turn can end *)

Lemma turn_return_inv (t : Table)
  (server_name hostname_column ip_column address : string) :
  turn t server_name hostname_column ip_column = Ok (Return address) ->
  exists labels rws j k row,
    t = Grid (mkDataFrame (TextIndex labels) rws)
    /\ position hostname_column (map Py.strip labels) = Some j
    /\ position ip_column (map Py.strip labels) = Some k
    /\ find (row_matches server_name j) rws = Some row
    /\ address = Py.strip (py_str (cell k row)).
Proof.
  destruct t as [e | [[labels | stop] rws]]; try discriminate.
  destruct (position hostname_column (map Py.strip labels)) as [j |] eqn:H.
  - destruct (text_column_or_numbers j rws) as [Ht | [Hne Hall]].
    + destruct (find (row_matches server_name j) rws) as [row |] eqn:Hf.
      * destruct (position ip_column (map Py.strip labels)) as [k |] eqn:Ha.
        -- rewrite (turn_match _ _ _ _ _ j k row H Ha Hf).
           intros E. injection E as <-.
           exists labels, rws, j, k, row. repeat split; assumption.
        -- rewrite (turn_no_address _ _ _ _ _ j H Ha Ht). discriminate.
      * rewrite (turn_no_match _ _ _ _ _ j H Ht Hf). discriminate.
    + rewrite (turn_numbers _ _ _ _ _ j H Hne Hall). discriminate.
  - rewrite (turn_no_hostname _ _ _ _ _ H). discriminate.
Qed.

Lemma turn_raise_inv (df : DataFrame)
  (server_name hostname_column ip_column : string) (e : exn) :
  turn (Grid df) server_name hostname_column ip_column = Raise e ->
  e = AttributeError.
Proof.
  destruct df as [[labels | stop] rws].
  - destruct (position hostname_column (map Py.strip labels)) as [j |] eqn:H.
    + destruct (text_column_or_numbers j rws) as [Ht | [Hne Hall]].
      * destruct (find (row_matches server_name j) rws) as [row |] eqn:Hf.
        -- destruct (position ip_column (map Py.strip labels)) as [k |] eqn:Ha.
           ++ rewrite (turn_match _ _ _ _ _ j k row H Ha Hf). discriminate.
           ++ rewrite (turn_no_address _ _ _ _ _ j H Ha Ht). discriminate.
        -- rewrite (turn_no_match _ _ _ _ _ j H Ht Hf). discriminate.
      * rewrite (turn_numbers _ _ _ _ _ j H Hne Hall).
        intros E. injection E as <-. reflexivity.
    + rewrite (turn_no_hostname _ _ _ _ _ H). discriminate.
  - intros E. injection E as <-. reflexivity.
Qed.

(** The three ways the resolver can end, read off the document. *)
Lemma find_server_ip_cases (html : Html)
  (server_name hostname_column ip_column : string) :
  (Forall (misses server_name hostname_column ip_column) html
   /\ find_server_ip html server_name hostname_column ip_column = ([], None))
  \/ (exists before t after address,
        html = before ++ t :: after
        /\ Forall (misses server_name hostname_column ip_column) before
        /\ turn t server_name hostname_column ip_column = Ok (Return address)
        /\ find_server_ip html server_name hostname_column ip_column
           = ([], Some address))
  \/ (exists before t after e,
        html = before ++ t :: after
        /\ Forall (misses server_name hostname_column ip_column) before
        /\ turn t server_name hostname_column ip_column = Raise e
        /\ find_server_ip html server_name hostname_column ip_column
           = ([error_line e], None)).
Proof.
  unfold find_server_ip, find_all_tables.
  destruct (for_tables_cases server_name hostname_column ip_column html)
    as [[Hall Hr] | [(b & t & af & address & Hdoc & Hb & Ht & Hr)
                    | (b & t & af & e & Hdoc & Hb & Ht & Hr)]];
    rewrite Hr.
  - left. split; [apply Forall_misses_passed_over; exact Hall | reflexivity].
  - right. left. exists b, t, af, address.
    repeat split; try assumption. apply Forall_misses_passed_over. exact Hb.
  - right. right. exists b, t, af, e.
    repeat split; try assumption. apply Forall_misses_passed_over. exact Hb.
Qed.

(** ** What a returned address is *)

(** X1: an address the resolver returns carries no white space at either
    end (stripping it again changes nothing), and nothing was printed on
    the way. *)
Theorem resolver_address_is_stripped :
  forall (html : Html) (server_name hostname_column ip_column : string)
         (out : list printed) (address : string),
    find_server_ip html server_name hostname_column ip_column
    = (out, Some address) ->
    Py.strip address = address /\ out = [].
Proof.
  intros html s h a out address Hfound.
  destruct (find_server_ip_cases html s h a)
    as [[_ Hr] | [(b & t & af & addr & _ & _ & Ht & Hr) | (b & t & af & e & _ & _ & _ & Hr)]];
    rewrite Hr in Hfound; try discriminate.
  injection Hfound as <- <-.
  apply turn_return_inv in Ht.
  destruct Ht as (labels & rws & j & k & row & _ & _ & _ & _ & ->).
  split; [apply strip_idempotent | reflexivity].
Qed.

Lemma resolver_address_is_stripped_witness :
  find_server_ip [Samples.padded] "web01" "Hostname" "IP Address"
  = ([], Some "10.0.0.5")
  /\ Py.strip "10.0.0.5" = "10.0.0.5".
Proof.
  split; [reflexivity |].
  exact (proj1 (resolver_address_is_stripped
                  [Samples.padded] "web01" "Hostname" "IP Address" []
                  "10.0.0.5" eq_refl)).
Defined.

(** X2: the resolver invents nothing.  An address it returns is the
    stripped text of the address cell of a row of the document, in a table
    that has both columns, and the hostname cell of that row is a string
    that strips to the name asked for; every table before that one was
    passed over. *)
Theorem resolver_address_comes_from_matching_row :
  forall (html : Html) (server_name hostname_column ip_column : string)
         (out : list printed) (address : string),
    find_server_ip html server_name hostname_column ip_column
    = (out, Some address) ->
    exists before labels rws after j k row name,
      html = before ++ Grid (mkDataFrame (TextIndex labels) rws) :: after
      /\ Forall (misses server_name hostname_column ip_column) before
      /\ position hostname_column (map Py.strip labels) = Some j
      /\ position ip_column (map Py.strip labels) = Some k
      /\ In row rws
      /\ cell j row = Str name /\ Py.strip name = server_name
      /\ address = Py.strip (py_str (cell k row)).
Proof.
  intros html s h a out address Hfound.
  destruct (find_server_ip_cases html s h a)
    as [[_ Hr] | [(b & t & af & addr & Hdoc & Hb & Ht & Hr)
                 | (b & t & af & e & _ & _ & _ & Hr)]];
    rewrite Hr in Hfound; try discriminate.
  injection Hfound as _ <-.
  apply turn_return_inv in Ht.
  destruct Ht as (labels & rws & j & k & row & -> & Hh & Ha & Hf & ->).
  apply find_some in Hf. destruct Hf as [Hin Hm].
  apply row_matches_stripped in Hm. destruct Hm as (name & Hc & Hs).
  exists b, labels, rws, af, j, k, row, name.
  repeat split; assumption.
Qed.

Lemma resolver_address_comes_from_matching_row_witness :
  find_server_ip [Samples.contacts; Samples.padded] "web01" "Hostname" "IP Address"
  = ([], Some "10.0.0.5")
  /\ exists before labels rws after j k row name,
       [Samples.contacts; Samples.padded]
       = before ++ Grid (mkDataFrame (TextIndex labels) rws) :: after
       /\ Forall (misses "web01" "Hostname" "IP Address") before
       /\ position "Hostname" (map Py.strip labels) = Some j
       /\ position "IP Address" (map Py.strip labels) = Some k
       /\ In row rws
       /\ cell j row = Str name /\ Py.strip name = "web01"
       /\ "10.0.0.5" = Py.strip (py_str (cell k row)).
Proof.
  split; [reflexivity |].
  exact (resolver_address_comes_from_matching_row
           [Samples.contacts; Samples.padded] "web01" "Hostname" "IP Address"
           [] "10.0.0.5" eq_refl).
Defined.

(** X3: the resolver returns absent without printing exactly when every
    table of the document is passed over: each lacks the hostname column,
    or has no matching row, or lacks the address column. *)
Theorem resolver_quietly_absent_iff_all_tables_miss :
  forall (html : Html) (server_name hostname_column ip_column : string),
    find_server_ip html server_name hostname_column ip_column = ([], None)
    <-> Forall (misses server_name hostname_column ip_column) html.
Proof.
  intros html s h a. split.
  - intros Hnone.
    destruct (find_server_ip_cases html s h a)
      as [[Hall _] | [(b & t & af & addr & _ & _ & _ & Hr)
                     | (b & t & af & e & _ & _ & _ & Hr)]].
    + exact Hall.
    + rewrite Hr in Hnone. discriminate.
    + rewrite Hr in Hnone. discriminate.
  - intros Hall. rewrite <- (app_nil_r html).
    rewrite (find_server_ip_after_misses _ _ _ html [] Hall). reflexivity.
Qed.

(** X4: once the resolver has an answer other than a quiet absent, an
    address or an error, tables added behind the document change
    nothing. *)
Theorem resolver_ignores_tables_behind_the_decision :
  forall (html more : Html) (server_name hostname_column ip_column : string),
    find_server_ip html server_name hostname_column ip_column <> ([], None) ->
    find_server_ip (html ++ more) server_name hostname_column ip_column
    = find_server_ip html server_name hostname_column ip_column.
Proof.
  intros html more s h a Hne.
  destruct (find_server_ip_cases html s h a)
    as [[_ Hr] | [(b & t & af & addr & -> & Hb & Ht & Hr)
                 | (b & t & af & e & -> & Hb & Ht & Hr)]].
  - contradiction.
  - rewrite Hr, <- app_assoc, <- app_comm_cons.
    rewrite (find_server_ip_after_misses _ _ _ b _ Hb).
    apply find_server_ip_return. exact Ht.
  - rewrite Hr, <- app_assoc, <- app_comm_cons.
    rewrite (find_server_ip_after_misses _ _ _ b _ Hb).
    apply find_server_ip_raise. exact Ht.
Qed.

Lemma resolver_ignores_tables_behind_the_decision_witness :
  find_server_ip [Samples.inventory] "web01" "Hostname" "IP Address" <> ([], None)
  /\ find_server_ip ([Samples.inventory] ++ [Samples.hollow; Samples.replica])
       "web01" "Hostname" "IP Address"
     = find_server_ip [Samples.inventory] "web01" "Hostname" "IP Address".
Proof.
  assert (H : find_server_ip [Samples.inventory] "web01" "Hostname" "IP Address"
              <> ([], None)) by discriminate.
  split; [exact H |].
  exact (resolver_ignores_tables_behind_the_decision
           [Samples.inventory] [Samples.hollow; Samples.replica]
           "web01" "Hostname" "IP Address" H).
Defined.

(** ** Names and titles with white space around them *)

(** X5: a server name with white space at either end is never found,
    whatever the document holds: cells are stripped before the comparison
    and the name is not. *)
Theorem padded_server_name_is_never_found :
  forall (html : Html) (server_name hostname_column ip_column : string),
    Py.strip server_name <> server_name ->
    snd (find_server_ip html server_name hostname_column ip_column) = None.
Proof.
  intros html s h a Hpad.
  destruct (find_server_ip_cases html s h a)
    as [[_ Hr] | [(b & t & af & addr & _ & _ & Ht & Hr)
                 | (b & t & af & e & _ & _ & _ & Hr)]];
    rewrite Hr; try reflexivity.
  exfalso. apply turn_return_inv in Ht.
  destruct Ht as (labels & rws & j & k & row & _ & _ & _ & Hf & _).
  apply find_some in Hf. destruct Hf as [_ Hm].
  apply row_matches_stripped in Hm. destruct Hm as (name & _ & Hs).
  apply Hpad. rewrite <- Hs. apply strip_idempotent.
Qed.

Lemma padded_server_name_is_never_found_witness :
  Py.strip "web01 " <> "web01 "
  /\ snd (find_server_ip [Samples.padded; Samples.inventory] "web01 "
            "Hostname" "IP Address") = None.
Proof.
  assert (H : Py.strip "web01 " <> "web01 ") by discriminate.
  split; [exact H |].
  exact (padded_server_name_is_never_found
           [Samples.padded; Samples.inventory] "web01 " "Hostname" "IP Address" H).
Defined.

(** X6: the same holds for the configured column titles: headers are
    stripped and the titles are not, so with white space around either
    title no document yields an address. *)
Theorem padded_column_title_is_never_found :
  forall (html : Html) (server_name hostname_column ip_column : string),
    Py.strip hostname_column <> hostname_column
    \/ Py.strip ip_column <> ip_column ->
    snd (find_server_ip html server_name hostname_column ip_column) = None.
Proof.
  intros html s h a Hpad.
  destruct (find_server_ip_cases html s h a)
    as [[_ Hr] | [(b & t & af & addr & _ & _ & Ht & Hr)
                 | (b & t & af & e & _ & _ & _ & Hr)]];
    rewrite Hr; try reflexivity.
  exfalso. apply turn_return_inv in Ht.
  destruct Ht as (labels & rws & j & k & row & _ & Hh & Ha & _ & _).
  destruct Hpad as [Hp | Hp]; apply Hp.
  - exact (position_stripped _ _ _ Hh).
  - exact (position_stripped _ _ _ Ha).
Qed.

Lemma padded_column_title_is_never_found_witness :
  (Py.strip "Hostname" <> "Hostname" \/ Py.strip "IP Address " <> "IP Address ")
  /\ snd (find_server_ip [Samples.padded] "web01" "Hostname" "IP Address ") = None.
Proof.
  assert (H : Py.strip "Hostname" <> "Hostname"
              \/ Py.strip "IP Address " <> "IP Address ")
    by (right; discriminate).
  split; [exact H |].
  exact (padded_column_title_is_never_found
           [Samples.padded] "web01" "Hostname" "IP Address " H).
Defined.

(** ** Errors *)

(** X7: on a document all of whose tables could be read, the one
    exception that can end resolution is [AttributeError], from [.str] on
    labels or on a hostname column that are not text.  With the guard of
    line 87, [iloc[0]] is never out of bounds, and no [KeyError] leaves the
    loop. *)
Theorem readable_tables_raise_only_AttributeError :
  forall (html : Html) (server_name hostname_column ip_column : string),
    Forall (fun t => exists df, t = Grid df) html ->
    fst (find_server_ip html server_name hostname_column ip_column) = []
    \/ find_server_ip html server_name hostname_column ip_column
       = ([LineExn "Error parsing table data: " AttributeError], None).
Proof.
  intros html s h a Hread.
  destruct (find_server_ip_cases html s h a)
    as [[_ Hr] | [(b & t & af & addr & _ & _ & _ & Hr)
                 | (b & t & af & e & Hdoc & _ & Ht & Hr)]];
    rewrite Hr; try (left; reflexivity).
  right. subst html.
  apply Forall_app in Hread. destruct Hread as [_ Hread].
  inversion Hread as [| ? ? [df ->] _]; subst.
  rewrite (turn_raise_inv df s h a e Ht). reflexivity.
Qed.

Lemma readable_tables_raise_only_AttributeError_witness :
  Forall (fun t => exists df, t = Grid df) [Samples.numbered; Samples.inventory]
  /\ (fst (find_server_ip [Samples.numbered; Samples.inventory]
             "web01" "Hostname" "IP Address") = []
      \/ find_server_ip [Samples.numbered; Samples.inventory]
           "web01" "Hostname" "IP Address"
         = ([LineExn "Error parsing table data: " AttributeError], None)).
Proof.
  assert (H : Forall (fun t => exists df, t = Grid df)
                [Samples.numbered; Samples.inventory]).
  { constructor; [eexists; reflexivity |].
    constructor; [eexists; reflexivity | constructor]. }
  split; [exact H |].
  exact (readable_tables_raise_only_AttributeError
           [Samples.numbered; Samples.inventory]
           "web01" "Hostname" "IP Address" H).
Defined.

(** X8: a table that has the hostname header, and whose hostname cells
    are all numbers or empty, ends resolution with an error when the loop
    reaches it, with or without the address column and whatever the later
    tables hold. *)
Theorem hostname_column_without_text_ends_resolution :
  forall (before after : list Table) (labels : list string)
         (rws : list (list Scalar))
         (server_name hostname_column ip_column : string) (j : nat),
    Forall (misses server_name hostname_column ip_column) before ->
    position hostname_column (map Py.strip labels) = Some j ->
    rws <> [] ->
    (forall row, In row rws -> is_Str (cell j row) = false) ->
    find_server_ip
      (before ++ Grid (mkDataFrame (TextIndex labels) rws) :: after)
      server_name hostname_column ip_column
    = ([LineExn "Error parsing table data: " AttributeError], None).
Proof.
  intros before after labels rws s h a j Hb Hh Hne Hall.
  rewrite (find_server_ip_after_misses _ _ _ before _ Hb).
  apply find_server_ip_raise.
  apply (turn_numbers _ _ _ _ _ j); assumption.
Qed.

Lemma hostname_column_without_text_witness :
  Forall (misses "7" "Hostname" "IP Address") [Samples.contacts]
  /\ position "Hostname" (map Py.strip ["Hostname"; "IP Address"]) = Some 0
  /\ [[Number "7"; Str "10.0.0.7"]; [NaN; Str "10.0.0.8"]] <> []
  /\ (forall row, In row [[Number "7"; Str "10.0.0.7"]; [NaN; Str "10.0.0.8"]] ->
                  is_Str (cell 0 row) = false)
  /\ find_server_ip
       ([Samples.contacts]
          ++ Grid (mkDataFrame (TextIndex ["Hostname"; "IP Address"])
                     [[Number "7"; Str "10.0.0.7"]; [NaN; Str "10.0.0.8"]])
          :: [Samples.inventory])
       "7" "Hostname" "IP Address"
     = ([LineExn "Error parsing table data: " AttributeError], None).
Proof.
  assert (Hb : Forall (misses "7" "Hostname" "IP Address") [Samples.contacts]).
  { constructor; [| constructor]. apply misses_hostname. reflexivity. }
  assert (Hne : [[Number "7"; Str "10.0.0.7"]; [NaN; Str "10.0.0.8"]] <> [])
    by discriminate.
  assert (Hall : forall row,
             In row [[Number "7"; Str "10.0.0.7"]; [NaN; Str "10.0.0.8"]] ->
             is_Str (cell 0 row) = false).
  { intros row [<- | [<- | []]]; reflexivity. }
  split; [exact Hb |]. split; [reflexivity |].
  split; [exact Hne |]. split; [exact Hall |].
  exact (hostname_column_without_text_ends_resolution
           [Samples.contacts] [Samples.inventory] ["Hostname"; "IP Address"]
           [[Number "7"; Str "10.0.0.7"]; [NaN; Str "10.0.0.8"]]
           "7" "Hostname" "IP Address" 0 Hb eq_refl Hne Hall).
Defined.

(** X9: a table without header cells, its columns labelled by position,
    ends resolution with an error when the loop reaches it: line 80 asks
    for [.str] on labels that are numbers. *)
Theorem table_without_headers_ends_resolution :
  forall (before after : list Table) (stop : nat) (rws : list (list Scalar))
         (server_name hostname_column ip_column : string),
    Forall (misses server_name hostname_column ip_column) before ->
    find_server_ip
      (before ++ Grid (mkDataFrame (RangeIndex stop) rws) :: after)
      server_name hostname_column ip_column
    = ([LineExn "Error parsing table data: " AttributeError], None).
Proof.
  intros before after stop rws s h a Hb.
  rewrite (find_server_ip_after_misses _ _ _ before _ Hb).
  apply find_server_ip_raise. reflexivity.
Qed.

Lemma table_without_headers_witness :
  Forall (misses "web01" "Hostname" "IP Address") [Samples.contacts]
  /\ find_server_ip
       ([Samples.contacts]
          ++ Grid (mkDataFrame (RangeIndex 2) [[Str "web01"; Str "10.0.0.5"]])
          :: [Samples.inventory])
       "web01" "Hostname" "IP Address"
     = ([LineExn "Error parsing table data: " AttributeError], None).
Proof.
  assert (Hb : Forall (misses "web01" "Hostname" "IP Address") [Samples.contacts]).
  { constructor; [| constructor]. apply misses_hostname. reflexivity. }
  split; [exact Hb |].
  exact (table_without_headers_ends_resolution
           [Samples.contacts] [Samples.inventory] 2
           [[Str "web01"; Str "10.0.0.5"]]
           "web01" "Hostname" "IP Address" Hb).
Defined.

(** * Further properties of the driver *)

(** ** Validation *)

Lemma contains_lookup {V : Type} (key : string) (d : list (string * V)) :
  contains key d = true -> exists v, lookup key d = Some v.
Proof.
  unfold contains. destruct (lookup key d) as [v |]; [| discriminate].
  intros _. exists v. reflexivity.
Qed.

(** A section answers [in] for every name, or for none. *)
Lemma py_in_total (section : YamlValue Fields) (field : string) :
  (exists b, forall f, exists c, py_in f section = Ok c /\ (f = field -> c = b))
  \/ forall f, py_in f section = Raise TypeError.
Proof.
  destruct section as [| s | items | fields].
  - right. intros f. reflexivity.
  - left. exists (is_substring field s). intros f. eexists.
    split; [reflexivity | intros ->; reflexivity].
  - left. eexists. intros f. eexists.
    split; [reflexivity | intros ->; reflexivity].
  - left. exists (contains field fields). intros f. eexists.
    split; [reflexivity | intros ->; reflexivity].
Qed.

Lemma check_fields_cases (section : YamlValue Fields) (fields : list string) :
  fields <> [] ->
  (forall field, In field fields -> py_in field section = Ok true)
  \/ (exists present field rest,
        fields = present ++ field :: rest
        /\ (forall g, In g present -> py_in g section = Ok true)
        /\ py_in field section = Ok false)
  \/ (forall f, py_in f section = Raise TypeError).
Proof.
  intros Hne.
  destruct (py_in_total section "") as [_ | Hraise]; [| right; right; exact Hraise].
  clear Hne. induction fields as [| f fields IH].
  - left. intros field [].
  - destruct (py_in_total section f) as [(b & Hb) | Hraise];
      [| right; right; exact Hraise].
    destruct (Hb f) as (c & Hc & Heq). specialize (Heq eq_refl). subst c.
    destruct b.
    + destruct IH as [Hall | [(present & field & rest & -> & Hp & Hf) | Hr]].
      * left. intros field [<- | Hin]; [exact Hc | apply Hall; exact Hin].
      * right. left. exists (f :: present), field, rest.
        repeat split; [| exact Hf].
        intros g [<- | Hg]; [exact Hc | apply Hp; exact Hg].
      * right. right. exact Hr.
    + right. left. exists [], f, fields. repeat split; [| exact Hc].
      intros g [].
Qed.

Section Validation.

Variable entries : list (string * YamlValue Fields).
Variable section : YamlValue Fields.
Hypothesis Hsection : lookup "confluence" entries = Some section.

Lemma check_fields_all (fields : list string) :
  (forall field, In field fields -> py_in field section = Ok true) ->
  check_fields fields (YMap entries) = ([], Value tt).
Proof.
  induction fields as [| f fields IH]; intros H.
  - reflexivity.
  - cbn [check_fields]. rewrite (lookup_item _ _ _ Hsection).
    cbn [bind io_monad]. unfold has. rewrite (H f (or_introl eq_refl)).
    cbn [eval ret bind io_monad negb app].
    rewrite IH; [reflexivity |]. intros g Hg. apply H. right. exact Hg.
Qed.

Lemma check_fields_first_missing (present rest : list string) (field : string) :
  (forall g, In g present -> py_in g section = Ok true) ->
  py_in field section = Ok false ->
  check_fields (present ++ field :: rest) (YMap entries)
  = ([missing_field field], Exited 1).
Proof.
  induction present as [| p present IH]; intros Hp Hf.
  - cbn [app check_fields]. rewrite (lookup_item _ _ _ Hsection).
    cbn [bind io_monad]. unfold has. rewrite Hf. reflexivity.
  - cbn [app check_fields]. rewrite (lookup_item _ _ _ Hsection).
    cbn [bind io_monad]. unfold has. rewrite (Hp p (or_introl eq_refl)).
    cbn [eval ret bind io_monad negb app].
    rewrite IH; [reflexivity | | exact Hf].
    intros g Hg. apply Hp. right. exact Hg.
Qed.

Lemma check_fields_raises (field : string) (rest : list string) (e : exn) :
  py_in field section = Raise e ->
  check_fields (field :: rest) (YMap entries) = ([], Uncaught e).
Proof.
  intros H. cbn [check_fields]. rewrite (lookup_item _ _ _ Hsection).
  cbn [bind io_monad]. unfold has. rewrite H. reflexivity.
Qed.

Lemma validate_config_section :
  validate_config (YMap entries) = check_fields required_fields (YMap entries).
Proof.
  unfold validate_config. rewrite (lookup_has _ _ _ Hsection).
  cbn [bind io_monad negb ret app].
  destruct (check_fields required_fields (YMap entries)) as [events o].
  reflexivity.
Qed.

End Validation.

Lemma validate_config_no_section (entries : list (string * YamlValue Fields)) :
  lookup "confluence" entries = None ->
  validate_config (YMap entries)
  = ([Print (Line "Error: 'confluence' section missing in config.yaml")], Exited 1).
Proof.
  intros H. unfold validate_config, has, py_in, contains. rewrite H. reflexivity.
Qed.

(** A document that is not a mapping: no section is found in it, or the
    lookup of line 110 raises. *)
Lemma validate_config_not_mapping (config : Config) :
  (forall entries, config <> YMap entries) ->
  validate_config config
  = ([Print (Line "Error: 'confluence' section missing in config.yaml")], Exited 1)
  \/ validate_config config = ([], Uncaught TypeError).
Proof.
  intros Hno. destruct config as [| s | items | entries].
  - right. reflexivity.
  - unfold validate_config, has, py_in.
    destruct (is_substring "confluence" s); [right | left]; reflexivity.
  - unfold validate_config, has, py_in.
    destruct (existsb _ items); [right | left]; reflexivity.
  - exfalso. exact (Hno entries eq_refl).
Qed.

Lemma validate_config_passes_iff (config : Config) :
  validate_config config = ([], Value tt) <-> passes config.
Proof.
  unfold passes. split.
  - intros Hv. destruct config as [| s | items | entries];
      try (match type of Hv with
           | validate_config ?c = _ =>
               destruct (validate_config_not_mapping c
                           ltac:(intros ?; discriminate)) as [H | H]
           end; rewrite H in Hv; discriminate).
    destruct (lookup "confluence" entries) as [section |] eqn:Hs.
    + exists entries, section. repeat split; [exact Hs |].
      rewrite (validate_config_section _ _ Hs) in Hv.
      destruct (check_fields_cases section required_fields
                  ltac:(discriminate))
        as [Hall | [(present & field & rest & Heq & Hp & Hf) | Hr]].
      * exact Hall.
      * rewrite Heq, (check_fields_first_missing _ _ Hs _ _ _ Hp Hf) in Hv.
        discriminate.
      * unfold required_fields in Hv.
        rewrite (check_fields_raises _ _ Hs _ _ _ (Hr "url")) in Hv.
        discriminate.
    + rewrite (validate_config_no_section _ Hs) in Hv. discriminate.
  - intros (entries & section & -> & Hs & Hall).
    rewrite (validate_config_section _ _ Hs).
    apply (check_fields_all _ _ Hs). exact Hall.
Qed.

Lemma validate_config_cases (config : Config) :
  validate_config config = ([], Value tt)
  \/ (exists line, validate_config config = ([Print line], Exited 1))
  \/ (exists e, validate_config config = ([], Uncaught e)).
Proof.
  destruct config as [| s | items | entries];
    try (match goal with
         | |- validate_config ?c = _ \/ _ =>
             destruct (validate_config_not_mapping c
                         ltac:(intros ?; discriminate)) as [H | H]
         end; rewrite H; [right; left | right; right]; eexists; reflexivity).
  destruct (lookup "confluence" entries) as [section |] eqn:Hs.
  - rewrite (validate_config_section _ _ Hs).
    destruct (check_fields_cases section required_fields ltac:(discriminate))
      as [Hall | [(present & field & rest & Heq & Hp & Hf) | Hr]].
    + left. apply (check_fields_all _ _ Hs). exact Hall.
    + right. left. rewrite Heq, (check_fields_first_missing _ _ Hs _ _ _ Hp Hf).
      eexists. reflexivity.
    + right. right. unfold required_fields.
      rewrite (check_fields_raises _ _ Hs _ _ _ (Hr "url")).
      eexists. reflexivity.
  - right. left. rewrite (validate_config_no_section _ Hs).
    eexists. reflexivity.
Qed.

(** A configuration that passes and is not complete has a section that is
    a string or a list: [print_config] raises on its first lookup. *)
Lemma print_config_unusable (config : Config) :
  passes config -> ~ config_complete config ->
  print_config config = ([], Uncaught TypeError).
Proof.
  intros (entries & section & -> & Hs & Hall) Hnot.
  unfold print_config. rewrite (lookup_item _ _ _ Hs). cbn [bind io_monad].
  destruct section as [| s | items | fields]; try reflexivity.
  exfalso. apply Hnot. exists entries, fields. repeat split; [exact Hs |].
  intros field Hin. specialize (Hall field Hin). injection Hall as H. exact H.
Qed.

(** X10: [validate_config] lets a configuration pass, printing nothing,
    exactly when it is a mapping with the key [confluence] and each of
    [url], [page_id], [hostname_column_title] and [ip_column_title] is
    [in] the section: a key of it if it is a mapping, an item if it is a
    list, a part of it if it is a string. *)
Theorem validate_config_passes_exactly_by_membership :
  forall (config : Config),
    validate_config config = ([], Value tt)
    <-> exists entries section,
          config = YMap entries
          /\ lookup "confluence" entries = Some section
          /\ py_in "url" section = Ok true
          /\ py_in "page_id" section = Ok true
          /\ py_in "hostname_column_title" section = Ok true
          /\ py_in "ip_column_title" section = Ok true.
Proof.
  intros config. rewrite validate_config_passes_iff. unfold passes.
  split.
  - intros (entries & section & -> & Hs & Hall). exists entries, section.
    repeat split; [exact Hs | | | |]; apply Hall; simpl; tauto.
  - intros (entries & section & -> & Hs & H1 & H2 & H3 & H4).
    exists entries, section. repeat split; [exact Hs |].
    intros field [<- | [<- | [<- | [<- | []]]]]; assumption.
Qed.

(** X11: when the section is there and fields are missing, one line is
    printed, for the first missing field in the order [url], [page_id],
    [hostname_column_title], [ip_column_title], and the program exits with
    status 1; fields missing further on are not reported. *)
Theorem validate_config_reports_first_missing_field :
  forall (config : list (string * YamlValue Fields)) (fields : Fields)
         (present rest : list string) (field : string),
    lookup "confluence" config = Some (YMap fields) ->
    required_fields = present ++ field :: rest ->
    (forall g, In g present -> contains g fields = true) ->
    contains field fields = false ->
    validate_config (YMap config)
    = ([Print (Line ("Error: '" ++ field ++ "' missing in confluence configuration"))],
       Exited 1).
Proof.
  intros config fields present rest field Hs Heq Hp Hf.
  rewrite (validate_config_section _ _ Hs), Heq.
  apply (check_fields_first_missing _ _ Hs).
  - intros g Hg. unfold py_in. rewrite (Hp g Hg). reflexivity.
  - unfold py_in. rewrite Hf. reflexivity.
Qed.

Lemma validate_config_first_missing_witness :
  lookup "confluence"
    [("confluence", YMap [("url", "https://wiki.example.org")])]
  = Some (YMap [("url", "https://wiki.example.org")])
  /\ required_fields = ["url"] ++ "page_id" :: ["hostname_column_title"; "ip_column_title"]
  /\ (forall g, In g ["url"] ->
                contains g [("url", "https://wiki.example.org")] = true)
  /\ contains "page_id" [("url", "https://wiki.example.org")] = false
  /\ validate_config
       (YMap [("confluence", YMap [("url", "https://wiki.example.org")])])
     = ([Print (Line ("Error: '" ++ "page_id" ++ "' missing in confluence configuration"))],
        Exited 1).
Proof.
  assert (Hp : forall g, In g ["url"] ->
                 contains g [("url", "https://wiki.example.org")] = true).
  { intros g [<- | []]. reflexivity. }
  split; [reflexivity |]. split; [reflexivity |].
  split; [exact Hp |]. split; [reflexivity |].
  exact (validate_config_reports_first_missing_field
           [("confluence", YMap [("url", "https://wiki.example.org")])]
           [("url", "https://wiki.example.org")]
           ["url"] ["hostname_column_title"; "ip_column_title"] "page_id"
           eq_refl eq_refl Hp eq_refl).
Defined.

(** ** Runs that stop early *)

Lemma two_arguments (w : World) :
  List.length (argv w) = 2 ->
  exists program, argv w = [program; nth 1 (argv w) ""].
Proof.
  destruct (argv w) as [| program [| name [| extra rest]]]; try discriminate.
  intros _. exists program. reflexivity.
Qed.

(** Runs the driver of a configured world up to the credentials. *)
Ltac run_to_credentials H :=
  destruct H as [Hlen (?config & ?fields & Hc & Hs & Hu & Hp & Hh & Hi)];
  unfold main; rewrite (proj2 (Nat.eqb_eq _ _) Hlen);
  cbn [negb];
  rewrite (read_config_loaded _ _ Hc); cbn [bind io_monad];
  rewrite (validate_config_complete _ _ _ _ _ _ Hs Hu Hp Hh Hi);
  rewrite (print_config_complete _ _ _ _ _ _ Hs Hu Hp Hh Hi);
  rewrite (lookup_item _ _ _ Hs); cbn [bind io_monad];
  unfold item, py_getitem; rewrite Hu, Hp, Hh, Hi;
  cbn [eval ret bind io_monad app].

Lemma main_config_defect (w : World) :
  List.length (argv w) = 2 ->
  ~ (exists config, config_yaml w = Yaml config /\ config_complete config) ->
  (exists line, main w = ([Open "config.yaml"; Print line], Exited 1))
  \/ (exists e, main w = ([Open "config.yaml"], Uncaught e)).
Proof.
  intros Hlen Hbad. unfold main.
  rewrite (proj2 (Nat.eqb_eq _ _) Hlen). cbn [negb].
  unfold read_config.
  destruct (config_yaml w) as [| e | e | config] eqn:Hc.
  - left. eexists. reflexivity.
  - right. eexists. reflexivity.
  - left. eexists. reflexivity.
  - cbn [bind io_monad emit ret].
    destruct (validate_config_cases config) as [Hok | [[line Herr] | [e Herr]]].
    + right. exists TypeError. rewrite Hok. cbn [app].
      rewrite (print_config_unusable config).
      * reflexivity.
      * apply validate_config_passes_iff. exact Hok.
      * intros Hcomplete. apply Hbad. exists config. split; [reflexivity | exact Hcomplete].
    + left. exists line. rewrite Herr. reflexivity.
    + right. exists e. rewrite Herr. reflexivity.
Qed.

Lemma config_complete_values (w : World) (config : Config) :
  List.length (argv w) = 2 ->
  config_yaml w = Yaml config ->
  config_complete config ->
  exists url page_id hostname_column ip_column,
    well_configured w url page_id hostname_column ip_column.
Proof.
  intros Hlen Hc (entries & fields & -> & Hs & Hall).
  destruct (contains_lookup "url" fields) as [url Hu];
    [apply Hall; simpl; tauto |].
  destruct (contains_lookup "page_id" fields) as [page_id Hp];
    [apply Hall; simpl; tauto |].
  destruct (contains_lookup "hostname_column_title" fields) as [h Hh];
    [apply Hall; simpl; tauto |].
  destruct (contains_lookup "ip_column_title" fields) as [a Ha];
    [apply Hall; simpl; tauto |].
  exists url, page_id, h, a. split; [exact Hlen |].
  exists entries, fields. repeat split; assumption.
Qed.

Lemma config_complete_dec (config : Config) :
  config_complete config \/ ~ config_complete config.
Proof.
  unfold config_complete.
  destruct config as [| s | items | entries];
    try (right; intros (entries & fields & H & _); discriminate).
  destruct (lookup "confluence" entries) as [[| s | items | fields] |] eqn:Hs;
    try (right; intros (entries' & fields' & H & H' & _);
         injection H as <-; rewrite Hs in H'; discriminate).
  destruct (forallb (fun f => contains f fields) required_fields) eqn:Hall.
  - left. exists entries, fields. repeat split; [exact Hs |].
    intros field Hin. exact (proj1 (forallb_forall _ _) Hall field Hin).
  - right. intros (entries' & fields' & H & H' & Hall').
    injection H as <-. rewrite Hs in H'. injection H' as <-.
    assert (forallb (fun f => contains f fields) required_fields = true)
      by (apply forallb_forall; exact Hall').
    congruence.
Qed.

Lemma config_cases (w : World) :
  List.length (argv w) = 2 ->
  (exists url page_id hostname_column ip_column,
     well_configured w url page_id hostname_column ip_column)
  \/ ~ (exists config, config_yaml w = Yaml config /\ config_complete config).
Proof.
  intros Hlen. destruct (config_yaml w) as [| e | e | config] eqn:Hc;
    try (right; intros (config & H & _); discriminate).
  destruct (config_complete_dec config) as [Hyes | Hno].
  - left. exact (config_complete_values w config Hlen Hc Hyes).
  - right. intros (config' & H & Hcomplete). injection H as <-. contradiction.
Qed.

Lemma main_no_credentials (w : World)
  (url page_id hostname_column ip_column : string) :
  well_configured w url page_id hostname_column ip_column ->
  py_not (lookup "OKTA_USER" (environ w))
  || py_not (lookup "OKTA_PASSWORD" (environ w)) = true ->
  main w
  = (config_events url page_id hostname_column ip_column
       ++ [Getenv "OKTA_USER"; Getenv "OKTA_PASSWORD";
           Print (Line "Error: OKTA_USER or OKTA_PASSWORD environment variables not set")],
     Exited 1).
Proof.
  intros H Hnot. run_to_credentials H.
  unfold authenticate_confluence, os_getenv.
  cbn [bind io_monad emit ret app]. rewrite Hnot. reflexivity.
Qed.

Lemma credentials_present (w : World) :
  py_not (lookup "OKTA_USER" (environ w))
  || py_not (lookup "OKTA_PASSWORD" (environ w)) = false ->
  exists user password,
    (lookup "OKTA_USER" (environ w) = Some user /\ Py.truthy user = true)
    /\ (lookup "OKTA_PASSWORD" (environ w) = Some password
        /\ Py.truthy password = true).
Proof.
  intros H. apply orb_false_iff in H. destruct H as [Hu Hp].
  destruct (lookup "OKTA_USER" (environ w)) as [user |]; [| discriminate].
  destruct (lookup "OKTA_PASSWORD" (environ w)) as [password |]; [| discriminate].
  exists user, password. simpl in Hu, Hp.
  apply negb_false_iff in Hu. apply negb_false_iff in Hp.
  repeat split; assumption.
Qed.

Lemma main_client_error (w : World)
  (url page_id hostname_column ip_column user password : string) (e : exn) :
  well_configured w url page_id hostname_column ip_column ->
  lookup "OKTA_USER" (environ w) = Some user -> Py.truthy user = true ->
  lookup "OKTA_PASSWORD" (environ w) = Some password ->
  Py.truthy password = true ->
  Confluence w url user password = Some e ->
  main w
  = (config_events url page_id hostname_column ip_column
       ++ [Getenv "OKTA_USER"; Getenv "OKTA_PASSWORD";
           NewConfluence url user password;
           Print (LineExn "Error authenticating to Confluence: " e)],
     Exited 1).
Proof.
  intros H Hu' Hut Hp' Hpt He. run_to_credentials H.
  unfold authenticate_confluence, os_getenv.
  rewrite Hu', Hp'. cbn [bind io_monad emit ret app py_not or_empty].
  rewrite Hut, Hpt. cbn [negb orb]. rewrite He. reflexivity.
Qed.

Lemma main_fetch_error (w : World)
  (url page_id hostname_column ip_column user password : string) (e : exn) :
  well_configured w url page_id hostname_column ip_column ->
  lookup "OKTA_USER" (environ w) = Some user -> Py.truthy user = true ->
  lookup "OKTA_PASSWORD" (environ w) = Some password ->
  Py.truthy password = true ->
  Confluence w url user password = None ->
  get_page_by_id w url page_id = Raise e ->
  main w
  = (preamble url page_id hostname_column ip_column user password
       ++ [Print (LineExn "Error retrieving page content: " e)],
     Exited 1).
Proof.
  intros H Hu' Hut Hp' Hpt Hc' He. run_to_credentials H.
  rewrite (authenticate_confluence_made _ _ _ _ Hu' Hut Hp' Hpt Hc').
  cbn [bind io_monad]. unfold get_page_content. rewrite He. reflexivity.
Qed.

Lemma main_no_body (w : World)
  (url page_id hostname_column ip_column user password : string) (e : exn) :
  well_configured w url page_id hostname_column ip_column ->
  lookup "OKTA_USER" (environ w) = Some user -> Py.truthy user = true ->
  lookup "OKTA_PASSWORD" (environ w) = Some password ->
  Py.truthy password = true ->
  Confluence w url user password = None ->
  get_page_by_id w url page_id = Ok (NoBody e) ->
  main w
  = (preamble url page_id hostname_column ip_column user password, Uncaught e).
Proof.
  intros H Hu' Hut Hp' Hpt Hc' He. run_to_credentials H.
  rewrite (authenticate_confluence_made _ _ _ _ Hu' Hut Hp' Hpt Hc').
  cbn [bind io_monad].
  rewrite (get_page_content_fetched _ _ _ _ He). reflexivity.
Qed.

Lemma well_configured_reaches_lookup (w : World)
  (url page_id hostname_column ip_column user password : string) (page : Html) :
  well_configured w url page_id hostname_column ip_column ->
  lookup "OKTA_USER" (environ w) = Some user -> Py.truthy user = true ->
  lookup "OKTA_PASSWORD" (environ w) = Some password ->
  Py.truthy password = true ->
  Confluence w url user password = None ->
  get_page_by_id w url page_id = Ok (Body page) ->
  reaches_lookup w (nth 1 (argv w) "") url page_id hostname_column ip_column
    user password page.
Proof.
  intros [Hlen Hconf] Hu Hut Hp Hpt Hc Hpage.
  constructor; try (split; assumption); try assumption.
  exact (two_arguments w Hlen).
Qed.

(** ** Every run *)

Lemma main_cases (w : World) : run_of w.
Proof.
  destruct (Nat.eq_dec (List.length (argv w)) 2) as [Hlen | Hlen].
  2: { apply run_usage; [exact Hlen | apply main_wrong_arguments; exact Hlen]. }
  destruct (config_cases w Hlen) as [(url & page_id & h & a & Hconf) | Hbad].
  2: { destruct (main_config_defect w Hlen Hbad) as [[line Hrun] | [e Hrun]].
       - exact (run_config_defect w line Hlen Hrun).
       - exact (run_config_uncaught w e Hlen Hrun). }
  destruct (py_not (lookup "OKTA_USER" (environ w))
            || py_not (lookup "OKTA_PASSWORD" (environ w))) eqn:Hcred.
  { exact (run_no_credentials w url page_id h a Hcred
             (main_no_credentials w url page_id h a Hconf Hcred)). }
  destruct (credentials_present w Hcred)
    as (user & password & [Hu Hut] & [Hp Hpt]).
  destruct (Confluence w url user password) as [e |] eqn:Hclient.
  { exact (run_client_error w url page_id h a user password e
             (main_client_error w _ _ _ _ _ _ e Hconf Hu Hut Hp Hpt Hclient)). }
  destruct (get_page_by_id w url page_id) as [[page | e] | e] eqn:Hpage.
  2: { exact (run_no_body w url page_id h a user password e
                (main_no_body w _ _ _ _ _ _ e Hconf Hu Hut Hp Hpt Hclient Hpage)). }
  2: { exact (run_fetch_error w url page_id h a user password e
                (main_fetch_error w _ _ _ _ _ _ e Hconf Hu Hut Hp Hpt Hclient Hpage)). }
  pose proof (well_configured_reaches_lookup w _ _ _ _ _ _ page
                Hconf Hu Hut Hp Hpt Hclient Hpage) as Hreach.
  destruct (find_server_ip page (nth 1 (argv w) "") h a) as [out found] eqn:Hfound.
  destruct (py_not found) eqn:Hnot.
  - exact (run_not_found w url page_id h a user password out
             (main_not_found w _ _ _ _ _ _ _ page out found Hreach Hfound Hnot)).
  - destruct found as [ip_address |]; [| discriminate].
    simpl in Hnot. apply negb_false_iff in Hnot.
    apply (run_connects w url page_id h a user password page out ip_address
             Hpage Hfound).
    + intros ->. discriminate.
    + exact (main_connects w _ _ _ _ _ _ _ page out ip_address Hreach Hfound Hnot).
Qed.

Lemma prints_start_nothing (out : list printed) :
  Forall (fun e => is_run e = false) (map Print out).
Proof. apply Forall_forall. intros e H. apply in_map_iff in H.
  destruct H as (p & <- & _). reflexivity. Qed.

Lemma prints_reach_nothing (out : list printed) :
  Forall (fun e => is_network e = false) (map Print out).
Proof. apply Forall_forall. intros e H. apply in_map_iff in H.
  destruct H as (p & <- & _). reflexivity. Qed.

Lemma preamble_starts_nothing
  (url page_id hostname_column ip_column user password : string) :
  Forall (fun e => is_run e = false)
    (preamble url page_id hostname_column ip_column user password).
Proof. unfold preamble. repeat constructor. Qed.



(** X13: with a complete configuration, when [OKTA_USER] or
    [OKTA_PASSWORD] is unset or empty, the run prints the configuration,
    reads both variables, prints the error and exits with status 1; no
    client is made and no page fetched. *)
Theorem missing_credentials_end_run_before_any_connection :
  forall (w : World) (url page_id hostname_column ip_column : string),
    well_configured w url page_id hostname_column ip_column ->
    py_not (lookup "OKTA_USER" (environ w))
    || py_not (lookup "OKTA_PASSWORD" (environ w)) = true ->
    main w
    = ([Open "config.yaml";
        Print (Line ("Confluence URL: " ++ url));
        Print (Line ("Page ID: " ++ page_id));
        Print (Line ("Hostname Column: " ++ hostname_column));
        Print (Line ("IP Column: " ++ ip_column));
        Getenv "OKTA_USER"; Getenv "OKTA_PASSWORD";
        Print (Line "Error: OKTA_USER or OKTA_PASSWORD environment variables not set")],
       Exited 1).
Proof.
  intros w url page_id h a Hconf Hcred.
  rewrite (main_no_credentials w url page_id h a Hconf Hcred). reflexivity.
Qed.

Lemma sample_world_well_configured (args : list string)
  (env : list (string * string)) (client : string -> string -> string -> option exn)
  (fetch : string -> string -> result Page) :
  List.length args = 2 ->
  well_configured (mkWorld args (Yaml Samples.settings) env client fetch)
    "https://wiki.example.org" "4242" "Hostname" "IP Address".
Proof.
  intros H. split; [exact H |].
  exists [("confluence", YMap Samples.settings_fields)], Samples.settings_fields.
  repeat split; reflexivity.
Qed.

Lemma missing_credentials_witness :
  well_configured
    (mkWorld ["ssh.py"; "web01"] (Yaml Samples.settings)
       [("OKTA_USER", "alice"); ("OKTA_PASSWORD", "")]
       (fun _ _ _ => None) (fun _ _ => Ok (Body [Samples.inventory])))
    "https://wiki.example.org" "4242" "Hostname" "IP Address"
  /\ main
       (mkWorld ["ssh.py"; "web01"] (Yaml Samples.settings)
          [("OKTA_USER", "alice"); ("OKTA_PASSWORD", "")]
          (fun _ _ _ => None) (fun _ _ => Ok (Body [Samples.inventory])))
     = ([Open "config.yaml";
         Print (Line ("Confluence URL: " ++ "https://wiki.example.org"));
         Print (Line ("Page ID: " ++ "4242"));
         Print (Line ("Hostname Column: " ++ "Hostname"));
         Print (Line ("IP Column: " ++ "IP Address"));
         Getenv "OKTA_USER"; Getenv "OKTA_PASSWORD";
         Print (Line "Error: OKTA_USER or OKTA_PASSWORD environment variables not set")],
        Exited 1).
Proof.
  split; [apply sample_world_well_configured; reflexivity |].
  apply missing_credentials_end_run_before_any_connection.
  - apply sample_world_well_configured. reflexivity.
  - reflexivity.
Defined.

(** X14: when making the client raises, or when fetching the page raises,
    the run prints the matching error with the exception and exits with
    status 1; the resolver is not called and no process is started. *)
Theorem store_failure_ends_run :
  forall (w : World)
         (url page_id hostname_column ip_column user password : string) (e : exn),
    well_configured w url page_id hostname_column ip_column ->
    lookup "OKTA_USER" (environ w) = Some user -> Py.truthy user = true ->
    lookup "OKTA_PASSWORD" (environ w) = Some password ->
    Py.truthy password = true ->
    (Confluence w url user password = Some e ->
     main w
     = (config_events url page_id hostname_column ip_column
          ++ [Getenv "OKTA_USER"; Getenv "OKTA_PASSWORD";
              NewConfluence url user password;
              Print (LineExn "Error authenticating to Confluence: " e)],
        Exited 1))
    /\ (Confluence w url user password = None ->
        get_page_by_id w url page_id = Raise e ->
        main w
        = (config_events url page_id hostname_column ip_column
             ++ [Getenv "OKTA_USER"; Getenv "OKTA_PASSWORD";
                 NewConfluence url user password;
                 GetPage page_id;
                 Print (LineExn "Error retrieving page content: " e)],
           Exited 1)).
Proof.
  intros w url page_id h a user password e Hconf Hu Hut Hp Hpt. split.
  - intros He. exact (main_client_error w _ _ _ _ _ _ e Hconf Hu Hut Hp Hpt He).
  - intros Hc He.
    rewrite (main_fetch_error w _ _ _ _ _ _ e Hconf Hu Hut Hp Hpt Hc He).
    reflexivity.
Qed.

Lemma store_failure_witness :
  well_configured
    (mkWorld ["ssh.py"; "web01"] (Yaml Samples.settings)
       [("OKTA_USER", "alice"); ("OKTA_PASSWORD", "secret")]
       (fun _ _ _ => None) (fun _ _ => Raise (OtherException "HTTPError")))
    "https://wiki.example.org" "4242" "Hostname" "IP Address"
  /\ main
       (mkWorld ["ssh.py"; "web01"] (Yaml Samples.settings)
          [("OKTA_USER", "alice"); ("OKTA_PASSWORD", "secret")]
          (fun _ _ _ => None) (fun _ _ => Raise (OtherException "HTTPError")))
     = (config_events "https://wiki.example.org" "4242" "Hostname" "IP Address"
          ++ [Getenv "OKTA_USER"; Getenv "OKTA_PASSWORD";
              NewConfluence "https://wiki.example.org" "alice" "secret";
              GetPage "4242";
              Print (LineExn "Error retrieving page content: "
                       (OtherException "HTTPError"))],
        Exited 1).
Proof.
  split; [apply sample_world_well_configured; reflexivity |].
  apply (store_failure_ends_run
           (mkWorld ["ssh.py"; "web01"] (Yaml Samples.settings)
              [("OKTA_USER", "alice"); ("OKTA_PASSWORD", "secret")]
              (fun _ _ _ => None) (fun _ _ => Raise (OtherException "HTTPError")))
           "https://wiki.example.org" "4242" "Hostname" "IP Address"
           "alice" "secret" (OtherException "HTTPError")
           (sample_world_well_configured ["ssh.py"; "web01"] _ _ _ eq_refl)
           eq_refl eq_refl eq_refl eq_refl); reflexivity.
Defined.

(** X15: every run ends in one of two ways.  Either its exit status is
    1, by [sys.exit(1)] or by an exception that [main] lets through, and
    it has started no process; or its last act, and its only start of a
    process, is [/bin/bash -i -c <command>] for a non-empty address that
    the resolver returned for the page it fetched. *)
Theorem every_run_exits_or_starts_bash_last :
  forall (w : World),
    ((snd (main w) = Exited 1 \/ exists e, snd (main w) = Uncaught e)
     /\ status (snd (main w)) = 1%Z
     /\ Forall (fun e => is_run e = false) (fst (main w)))
    \/ (exists events url page_id hostname_column ip_column page out ip_address,
          get_page_by_id w url page_id = Ok (Body page)
          /\ find_server_ip page (nth 1 (argv w) "") hostname_column ip_column
             = (out, Some ip_address)
          /\ ip_address <> ""
          /\ Forall (fun e => is_run e = false) events
          /\ fst (main w)
             = events
                 ++ [Run "/bin/bash"
                       ["/bin/bash"; "-i"; "-c";
                        (command_head ++ ip_address ++ command_tail)%string]]).
Proof.
  intros w.
  destruct (main_cases w)
    as [_ Hrun | line _ Hrun | e _ Hrun | url page_id h a _ Hrun
        | url page_id h a user password e Hrun
        | url page_id h a user password e Hrun
        | url page_id h a user password e Hrun
        | url page_id h a user password out Hrun
        | url page_id h a user password page out ip Hpage Hfound Hne Hrun];
    rewrite Hrun.
  - left. split; [left; reflexivity |]. split; [reflexivity | repeat constructor].
  - left. split; [left; reflexivity |]. split; [reflexivity | repeat constructor].
  - left. split; [right; exists e; reflexivity |].
    split; [reflexivity | repeat constructor].
  - left. split; [left; reflexivity |]. split; [reflexivity | repeat constructor].
  - left. split; [left; reflexivity |]. split; [reflexivity | repeat constructor].
  - left. split; [left; reflexivity |]. split; [reflexivity |]. cbn [fst].
    apply Forall_app. split; [apply preamble_starts_nothing | repeat constructor].
  - left. split; [right; exists e; reflexivity |]. split; [reflexivity |].
    apply preamble_starts_nothing.
  - left. split; [left; reflexivity |]. split; [reflexivity |]. cbn [fst].
    apply Forall_app. split; [apply preamble_starts_nothing |].
    apply Forall_app. split; [apply prints_start_nothing | repeat constructor].
  - right.
    exists (preamble url page_id h a user password ++ map Print out
              ++ [Print (Line ("IP Address for " ++ nth 1 (argv w) "" ++ ": " ++ ip))]),
      url, page_id, h, a, page, out, ip.
    repeat split; try assumption.
    + apply Forall_app. split; [apply preamble_starts_nothing |].
      apply Forall_app. split; [apply prints_start_nothing | repeat constructor].
    + cbn [fst]. rewrite <- !app_assoc. reflexivity.
Qed.

(** X16: while [OKTA_USER] or [OKTA_PASSWORD] is unset or empty, no run
    makes a client or fetches a page, whatever the arguments and the
    configuration are. *)
Theorem no_connection_without_credentials :
  forall (w : World),
    py_not (lookup "OKTA_USER" (environ w))
    || py_not (lookup "OKTA_PASSWORD" (environ w)) = true ->
    Forall (fun e => is_network e = false) (fst (main w)).
Proof.
  intros w Hcred.
  destruct (Nat.eq_dec (List.length (argv w)) 2) as [Hlen | Hlen].
  - destruct (config_cases w Hlen) as [(url & page_id & h & a & Hconf) | Hbad].
    + rewrite (main_no_credentials w url page_id h a Hconf Hcred).
      repeat constructor.
    + destruct (main_config_defect w Hlen Hbad) as [[line Hrun] | [e Hrun]];
        rewrite Hrun; repeat constructor.
  - rewrite (main_wrong_arguments w Hlen). repeat constructor.
Qed.

Lemma no_connection_without_credentials_witness :
  py_not (lookup "OKTA_USER"
            (environ (mkWorld ["ssh.py"; "web01"] (Yaml Samples.settings)
                        [("OKTA_PASSWORD", "secret")]
                        (fun _ _ _ => None) (fun _ _ => Ok (Body [Samples.inventory])))))
  || py_not (lookup "OKTA_PASSWORD"
               (environ (mkWorld ["ssh.py"; "web01"] (Yaml Samples.settings)
                           [("OKTA_PASSWORD", "secret")]
                           (fun _ _ _ => None) (fun _ _ => Ok (Body [Samples.inventory])))))
  = true
  /\ Forall (fun e => is_network e = false)
       (fst (main (mkWorld ["ssh.py"; "web01"] (Yaml Samples.settings)
                     [("OKTA_PASSWORD", "secret")]
                     (fun _ _ _ => None) (fun _ _ => Ok (Body [Samples.inventory]))))).
Proof.
  split; [reflexivity |].
  apply no_connection_without_credentials. reflexivity.
Defined.

(** ** The command *)

Lemma count_quotes_app (a b : string) :
  count_quotes (a ++ b) = count_quotes a + count_quotes b.
Proof.
  induction a as [| c a IH]; simpl; [reflexivity | rewrite IH; lia].
Qed.

(** X17: the text given to [bash -c] holds three double quotes besides
    those of the address: the quote opened before [Connection established.]
    is closed by the end of the Python literal, not in the text, so for an
    address without quotes their number is odd. *)
Theorem command_has_an_unclosed_quote :
  forall (ip_address : string),
    count_quotes (command_for ip_address ++ "; exec bash")
    = 3 + count_quotes ip_address.
Proof.
  intros ip_address.
  rewrite command_around_address, !count_quotes_app.
  change (count_quotes command_head) with 0.
  change (count_quotes command_tail) with 3. lia.
Qed.

(** ** A missing address cell *)

(** X18: when the address cell of the matching row is missing ([nan] in
    the frame), the run does not report a miss: it announces the address
    [nan] and starts the connection loop for it. *)
Theorem missing_address_cell_is_taken_for_an_address :
  forall (w : World)
         (server_name url page_id hostname_column ip_column user password : string)
         (before after : list Table) (labels : list string)
         (above below : list (list Scalar)) (row : list Scalar) (j k : nat),
    reaches_lookup w server_name url page_id hostname_column ip_column
      user password
      (before ++ Grid (mkDataFrame (TextIndex labels) (above ++ row :: below))
              :: after) ->
    Forall (misses server_name hostname_column ip_column) before ->
    position hostname_column (map Py.strip labels) = Some j ->
    position ip_column (map Py.strip labels) = Some k ->
    (forall r, In r above -> row_matches server_name j r = false) ->
    row_matches server_name j row = true ->
    cell k row = NaN ->
    main w
    = (preamble url page_id hostname_column ip_column user password
         ++ [Print (Line ("IP Address for " ++ server_name ++ ": nan"));
             Run "/bin/bash"
               ["/bin/bash"; "-i"; "-c";
                (command_head ++ "nan" ++ command_tail)%string]],
       Value tt).
Proof.
  intros w s url page_id h a user password before after labels above below
         row j k Hreach Hb Hh Ha Hno Hyes Hnan.
  assert (Hfound :
            find_server_ip
              (before ++ Grid (mkDataFrame (TextIndex labels) (above ++ row :: below))
                      :: after) s h a
            = ([], Some "nan")).
  { rewrite (find_server_ip_after_misses _ _ _ before _ Hb).
    apply find_server_ip_return.
    rewrite (turn_match _ _ _ _ _ j k row Hh Ha (find_first_row _ _ _ _ _ Hno Hyes)).
    rewrite Hnan. reflexivity. }
  rewrite (main_connects w _ _ _ _ _ _ _ _ [] "nan" Hreach Hfound eq_refl).
  reflexivity.
Qed.

Lemma missing_address_cell_witness :
  reaches_lookup
    (Samples.world ["ssh.py"; "web01"]
       ([] ++ Grid (mkDataFrame (TextIndex ["Hostname"; "IP Address"])
                      ([] ++ [Str "web01"; NaN] :: []))
           :: []))
    "web01" "https://wiki.example.org" "4242" "Hostname" "IP Address"
    "alice" "secret"
    ([] ++ Grid (mkDataFrame (TextIndex ["Hostname"; "IP Address"])
                   ([] ++ [Str "web01"; NaN] :: []))
        :: [])
  /\ main
       (Samples.world ["ssh.py"; "web01"]
          ([] ++ Grid (mkDataFrame (TextIndex ["Hostname"; "IP Address"])
                         ([] ++ [Str "web01"; NaN] :: []))
              :: []))
     = (preamble "https://wiki.example.org" "4242" "Hostname" "IP Address"
          "alice" "secret"
          ++ [Print (Line ("IP Address for " ++ "web01" ++ ": nan"));
              Run "/bin/bash"
                ["/bin/bash"; "-i"; "-c";
                 (command_head ++ "nan" ++ command_tail)%string]],
        Value tt).
Proof.
  split; [apply sample_world_reaches_lookup |].
  apply (missing_address_cell_is_taken_for_an_address
           _ "web01" "https://wiki.example.org" "4242" "Hostname" "IP Address"
           "alice" "secret" [] [] ["Hostname"; "IP Address"] [] []
           [Str "web01"; NaN] 0 1).
  - apply sample_world_reaches_lookup.
  - constructor.
  - reflexivity.
  - reflexivity.
  - intros r [].
  - reflexivity.
  - reflexivity.
Defined.

(** ** Configurations that pass and cannot be used *)

(** X19: validation does not make the configuration usable.  When the
    [confluence] section is a list or a string in which the four names are
    found, [validate_config] passes without a word, and the run then ends
    at the first line of [print_config] in a [TypeError] that [main] lets
    through: nothing is printed, no variable read, no connection made. *)
Theorem validated_section_need_not_be_usable :
  forall (w : World) (entries : list (string * YamlValue Fields))
         (section : YamlValue Fields),
    List.length (argv w) = 2 ->
    config_yaml w = Yaml (YMap entries) ->
    lookup "confluence" entries = Some section ->
    (forall fields, section <> YMap fields) ->
    (forall field, In field required_fields -> py_in field section = Ok true) ->
    validate_config (YMap entries) = ([], Value tt)
    /\ main w = ([Open "config.yaml"], Uncaught TypeError).
Proof.
  intros w entries section Hlen Hc Hs Hshape Hall.
  assert (Hpass : passes (YMap entries)).
  { exists entries, section. repeat split; assumption. }
  assert (Hok : validate_config (YMap entries) = ([], Value tt))
    by (apply validate_config_passes_iff; exact Hpass).
  split; [exact Hok |].
  unfold main. rewrite (proj2 (Nat.eqb_eq _ _) Hlen). cbn [negb].
  rewrite (read_config_loaded _ _ Hc). cbn [bind io_monad].
  rewrite Hok. cbn [app].
  rewrite (print_config_unusable (YMap entries) Hpass); [reflexivity |].
  intros (entries' & fields & H & Hs' & _). injection H as <-.
  rewrite Hs in Hs'. injection Hs' as ->. exact (Hshape fields eq_refl).
Qed.

Lemma validated_section_witness :
  List.length
    (argv (mkWorld ["ssh.py"; "web01"]
             (Yaml (YMap [("confluence",
                           YList [Some "url"; Some "page_id";
                                  Some "hostname_column_title";
                                  Some "ip_column_title"])]))
             [] (fun _ _ _ => None) (fun _ _ => Ok (Body [])))) = 2
  /\ main (mkWorld ["ssh.py"; "web01"]
             (Yaml (YMap [("confluence",
                           YList [Some "url"; Some "page_id";
                                  Some "hostname_column_title";
                                  Some "ip_column_title"])]))
             [] (fun _ _ _ => None) (fun _ _ => Ok (Body [])))
     = ([Open "config.yaml"], Uncaught TypeError).
Proof.
  split; [reflexivity |].
  apply (validated_section_need_not_be_usable
           (mkWorld ["ssh.py"; "web01"]
              (Yaml (YMap [("confluence",
                            YList [Some "url"; Some "page_id";
                                   Some "hostname_column_title";
                                   Some "ip_column_title"])]))
              [] (fun _ _ _ => None) (fun _ _ => Ok (Body [])))
           [("confluence",
             YList [Some "url"; Some "page_id";
                    Some "hostname_column_title"; Some "ip_column_title"])]
           (YList [Some "url"; Some "page_id";
                   Some "hostname_column_title"; Some "ip_column_title"])).
  - reflexivity.
  - reflexivity.
  - reflexivity.
  - intros fields. discriminate.
  - intros field [<- | [<- | [<- | [<- | []]]]]; reflexivity.
Defined.

(** X20: when [config.yaml] is empty, or holds a number or a boolean,
    [yaml.safe_load] gives a value that holds nothing, and the test of
    line 105 raises: the run ends in a [TypeError] that [main] lets
    through, without any message. *)
Theorem empty_configuration_ends_in_TypeError :
  forall (w : World),
    List.length (argv w) = 2 ->
    config_yaml w = Yaml YAtom ->
    main w = ([Open "config.yaml"], Uncaught TypeError).
Proof.
  intros w Hlen Hc. unfold main.
  rewrite (proj2 (Nat.eqb_eq _ _) Hlen). cbn [negb].
  rewrite (read_config_loaded _ _ Hc). reflexivity.
Qed.

Lemma empty_configuration_witness :
  List.length (argv (mkWorld ["ssh.py"; "web01"] (Yaml YAtom) []
                       (fun _ _ _ => None) (fun _ _ => Ok (Body [])))) = 2
  /\ main (mkWorld ["ssh.py"; "web01"] (Yaml YAtom) []
             (fun _ _ _ => None) (fun _ _ => Ok (Body [])))
     = ([Open "config.yaml"], Uncaught TypeError).
Proof.
  split; [reflexivity |].
  apply empty_configuration_ends_in_TypeError; reflexivity.
Defined.

(** ** A page without a body *)

(** X21: when the page comes back without [body.storage.value], the
    lookup of line 144, outside every [try], raises: after the fetch the
    run ends in that exception; no line is printed for it, the resolver is
    not called and no process is started. *)
Theorem page_without_body_ends_run :
  forall (w : World)
         (url page_id hostname_column ip_column user password : string) (e : exn),
    well_configured w url page_id hostname_column ip_column ->
    lookup "OKTA_USER" (environ w) = Some user -> Py.truthy user = true ->
    lookup "OKTA_PASSWORD" (environ w) = Some password ->
    Py.truthy password = true ->
    Confluence w url user password = None ->
    get_page_by_id w url page_id = Ok (NoBody e) ->
    main w
    = (config_events url page_id hostname_column ip_column
         ++ [Getenv "OKTA_USER"; Getenv "OKTA_PASSWORD";
             NewConfluence url user password;
             GetPage page_id],
       Uncaught e).
Proof.
  intros w url page_id h a user password e Hconf Hu Hut Hp Hpt Hc He.
  rewrite (main_no_body w _ _ _ _ _ _ e Hconf Hu Hut Hp Hpt Hc He).
  reflexivity.
Qed.

Lemma page_without_body_witness :
  well_configured
    (mkWorld ["ssh.py"; "web01"] (Yaml Samples.settings)
       [("OKTA_USER", "alice"); ("OKTA_PASSWORD", "secret")]
       (fun _ _ _ => None) (fun _ _ => Ok (NoBody (KeyError "body"))))
    "https://wiki.example.org" "4242" "Hostname" "IP Address"
  /\ main
       (mkWorld ["ssh.py"; "web01"] (Yaml Samples.settings)
          [("OKTA_USER", "alice"); ("OKTA_PASSWORD", "secret")]
          (fun _ _ _ => None) (fun _ _ => Ok (NoBody (KeyError "body"))))
     = (config_events "https://wiki.example.org" "4242" "Hostname" "IP Address"
          ++ [Getenv "OKTA_USER"; Getenv "OKTA_PASSWORD";
              NewConfluence "https://wiki.example.org" "alice" "secret";
              GetPage "4242"],
        Uncaught (KeyError "body")).
Proof.
  split; [apply sample_world_well_configured; reflexivity |].
  apply (page_without_body_ends_run
           (mkWorld ["ssh.py"; "web01"] (Yaml Samples.settings)
              [("OKTA_USER", "alice"); ("OKTA_PASSWORD", "secret")]
              (fun _ _ _ => None) (fun _ _ => Ok (NoBody (KeyError "body"))))
           "https://wiki.example.org" "4242" "Hostname" "IP Address"
           "alice" "secret" (KeyError "body")
           (sample_world_well_configured ["ssh.py"; "web01"] _ _ _ eq_refl));
    reflexivity.
Defined.
